(** * consumers/project_consumer_sruiz.py: per-author counts and sentiment

    A shallow embedding of the Kafka consumer that keeps, per author, a
    message count ([author_counts]) and the list of sentiment scores
    ([author_sentiments]), and redraws two bar charts after every message.

    The two [defaultdict]s are association lists in insertion order, as a
    Python dict iterates.  The module-level globals, the logger and the
    Matplotlib figure are fields of an explicit [state]; statements run in a
    state-and-exception monad [M], so that what a statement did before an
    exception was raised stays done, as in Python.  The libraries the module
    calls ([json.loads], TextBlob, Matplotlib, [os.getenv], the Kafka
    consumer) are the fields of [env]: each call returns or raises. *)

From Stdlib Require Import ZArith List String Ascii Bool Floats Lia.
Import ListNotations.

Local Open Scope string_scope.
Local Open Scope list_scope.
Local Open Scope Z_scope.

Set Implicit Arguments.
Set Warnings "-register-all,-inexact-float".

(* ================================================================= *)
(** ** Python values and exceptions *)

(** What [json.loads] can return.  A [PyDict] lists the items of the decoded
    dict in insertion order; its keys are distinct, as in any dict. *)
Inductive pyval : Type :=
| PyNone
| PyBool (b : bool)
| PyInt (z : Z)
| PyFloat (f : float)
| PyStr (s : string)
| PyList (l : list pyval)
| PyDict (d : list (string * pyval)).

(** The exception classes the module tells apart.  [JSONDecodeError],
    [TypeError], [ZeroDivisionError] and [OtherError] (any other class) are
    subclasses of [Exception]; [KeyboardInterrupt] and [SystemExit] derive
    from [BaseException] only. *)
Inductive exn : Type :=
| JSONDecodeError
| TypeError
| ZeroDivisionError
| OtherError
| KeyboardInterrupt
| SystemExit.

Definition is_Exception (e : exn) : bool :=
  match e with
  | KeyboardInterrupt | SystemExit => false
  | _ => true
  end.

Inductive outcome (A : Type) : Type :=
| Return (a : A)
| Raise (e : exn).

Arguments Return {A} a.
Arguments Raise {A} e.

Definition isinstance_dict (v : pyval) : bool :=
  match v with PyDict _ => true | _ => false end.

(** [d.get(key, default)] on a decoded JSON object. *)
Fixpoint dict_get (d : list (string * pyval)) (key : string) (default : pyval)
  : pyval :=
  match d with
  | [] => default
  | (k, v) :: d' => if String.eqb k key then v else dict_get d' key default
  end.

Fixpoint dict_has (d : list (string * pyval)) (key : string) : bool :=
  match d with
  | [] => false
  | (k, _) :: d' => if String.eqb k key then true else dict_has d' key
  end.

(** The value of the field [key] of a decoded object, if it has one. *)
Fixpoint dict_find (d : list (string * pyval)) (key : string)
  : option pyval :=
  match d with
  | [] => None
  | (k, v) :: d' => if String.eqb k key then Some v else dict_find d' key
  end.

(* ================================================================= *)
(** ** Keys of the two tables: Python's [hash] and [==]

    A dict finds a key by hash and [==].  Among the values [json.loads]
    returns, [None] and strings equal only themselves, numbers compare by
    value across [bool], [int] and [float] ([True == 1 == 1.0]), and lists
    and dicts have no hash.  [key_class] is the class of a hashable value
    under [==]: two values are the same key exactly when their classes are
    equal.  ([NaN] is found by identity: [json] returns one shared object.) *)
Inductive key_class : Type :=
| KNone
| KStr (s : string)
| KInt (z : Z)
| KInf (negative : bool)
| KNaN
| KFrac (negative : bool) (mantissa : positive) (exponent : Z).

Definition float_class (f : float) : key_class :=
  match Prim2SF f with
  | S754_zero _ => KInt 0
  | S754_infinity s => KInf s
  | S754_nan => KNaN
  | S754_finite s m e =>
      let signed (z : Z) := if s then - z else z in
      if 0 <=? e then KInt (signed (Z.pos m * 2 ^ e))
      else if Z.pos m mod 2 ^ (- e) =? 0
           then KInt (signed (Z.pos m / 2 ^ (- e)))
           else KFrac s m e
  end.

(** [py_hash v] is [None] where Python raises
    [TypeError: unhashable type]. *)
Definition py_hash (v : pyval) : option key_class :=
  match v with
  | PyNone => Some KNone
  | PyBool b => Some (KInt (if b then 1 else 0))
  | PyInt z => Some (KInt z)
  | PyFloat f => Some (float_class f)
  | PyStr s => Some (KStr s)
  | PyList _ | PyDict _ => None
  end.

Definition hashable (v : pyval) : bool :=
  match py_hash v with Some _ => true | None => false end.

Definition key_class_eq_dec (a b : key_class) : {a = b} + {a <> b}.
Proof.
  decide equality;
    first [ apply string_dec | apply Z.eq_dec | apply bool_dec
          | apply Pos.eq_dec ].
Defined.

Definition key_eqb (a b : pyval) : bool :=
  match py_hash a, py_hash b with
  | Some x, Some y => if key_class_eq_dec x y then true else false
  | _, _ => false
  end.

(** A dict as its items in insertion order. *)
Definition table (V : Type) : Type := list (pyval * V).

Definition keys {V} (t : table V) : list pyval := map fst t.
Definition values {V} (t : table V) : list V := map snd t.

Fixpoint lookup {V} (k : pyval) (t : table V) : option V :=
  match t with
  | [] => None
  | (k', v) :: t' => if key_eqb k' k then Some v else lookup k t'
  end.

(** [t[k] = f(t[k])] on a [defaultdict] whose factory gives [dflt]: a
    missing key is first inserted, at the end, with [dflt]; a key already
    there keeps its place and its first key object. *)
Fixpoint defaultdict_update {V} (dflt : V) (f : V -> V) (k : pyval)
  (t : table V) : table V :=
  match t with
  | [] => [(k, f dflt)]
  | (k', v) :: t' =>
      if key_eqb k' k then (k', f v) :: t'
      else (k', v) :: defaultdict_update dflt f k t'
  end.

(* ================================================================= *)
(** ** The logger, the figure and the Kafka consumer *)

Inductive level : Type := DEBUG | INFO | WARNING | ERROR.

(** One constructor per message the module logs, with the values its
    f-string formats. *)
Inductive log_msg : Type :=
| Kafka_topic (topic : string)
| Kafka_consumer_group_id (group_id : string)
| Raw_message (message : string)
| Processed_JSON_message (message_dict : pyval)
| Sentiment_score_for_message (sentiment_score : float)
| Updated_author_counts (counts : table Z)
| Charts_updated_successfully (message : string)
| Expected_a_dictionary (message_dict : pyval)
| Invalid_JSON_message (message : string)
| Error_processing_message (e : exn)
| START_consumer
| Consumer_topic_and_group (topic group_id : string)
| Polling_messages (topic : string)
| Received_message_at_offset (offset : Z) (message_str : string)
| Consumer_interrupted_by_user
| Error_while_consuming_messages (e : exn)
| Kafka_consumer_closed (topic : string)
| END_consumer (topic group_id : string).

Record log_record : Type := { lvl : level; msg : log_msg }.

Inductive axes : Type := ax_count | ax_sentiment.

(** The Matplotlib calls of the two chart functions. *)
Inductive plt_call : Type :=
| ax_clear (ax : axes)
| ax_bar (ax : axes) (x : list pyval) (height : list pyval) (color : string)
| ax_set_xlabel (ax : axes) (label : string)
| ax_set_ylabel (ax : axes) (label : string)
| ax_set_title (ax : axes) (label : string)
| ax_set_xticklabels (ax : axes) (labels : list pyval)
| plt_tight_layout
| plt_draw
| plt_pause.

(** What one step of iterating the consumer gives: a record with its
    [value] and [offset], or an exception raised by the consumer (also a
    [KeyboardInterrupt] while it blocks).  The end of the list is the end
    of the stream. *)
Record consumer_record : Type := { value : string; offset : Z }.

Inductive pull : Type :=
| Yield (r : consumer_record)
| Raises (e : exn).

(** What the module calls and does not define, taken as parameters; a
    call returns a value or raises.  [getenv] is [os.getenv] without its
    default; [TextBlob_polarity message] is
    [TextBlob(message).sentiment.polarity]; [matplotlib c] is [None] when
    the call [c] returns and the exception it raises otherwise;
    [create_kafka_consumer], of [utils.utils_consumer], returns the
    consumer, given by what iterating it yields. *)
Record env : Type := {
  getenv : string -> option string;
  json_loads : string -> outcome pyval;
  TextBlob_polarity : pyval -> outcome float;
  matplotlib : plt_call -> option exn;
  create_kafka_consumer : string -> string -> outcome (list pull)
}.

(* ================================================================= *)
(** ** State and the monad of statements *)

Record state : Type := {
  author_counts : table Z;
  author_sentiments : table (list float);
  logged : list log_record;
  plt_calls : list plt_call;
  consumer_closed : nat
}.

Definition initial_state : state :=
  {| author_counts := []; author_sentiments := []; logged := [];
     plt_calls := []; consumer_closed := 0 |}.

Definition M (A : Type) : Type := state -> outcome A * state.

Definition ret {A} (a : A) : M A := fun st => (Return a, st).

Definition bind {A B} (m : M A) (k : A -> M B) : M B :=
  fun st =>
    match m st with
    | (Return a, st') => k a st'
    | (Raise e, st') => (Raise e, st')
    end.

Definition raise {A} (e : exn) : M A := fun st => (Raise e, st).

Definition get : M state := fun st => (Return st, st).

Definition lift {A} (o : outcome A) : M A := fun st => (o, st).

(** [try: body except ...: handler]: [handlers e] is the body of the first
    clause that matches [e], if one does. *)
Definition try_except {A} (body : M A) (handlers : exn -> option (M A))
  : M A :=
  fun st =>
    match body st with
    | (Return a, st') => (Return a, st')
    | (Raise e, st') =>
        match handlers e with
        | Some h => h st'
        | None => (Raise e, st')
        end
    end.

(** [try: body finally: final]. *)
Definition try_finally {A} (body : M A) (final : M unit) : M A :=
  fun st =>
    match body st with
    | (r, st') =>
        match final st' with
        | (Return _, st'') => (r, st'')
        | (Raise e, st'') => (Raise e, st'')
        end
    end.

Declare Scope py_scope.
Delimit Scope py_scope with py.
Notation "x <- c1 ;; c2" := (bind c1 (fun x => c2))
  (at level 61, c1 at next level, right associativity) : py_scope.
Notation "c1 ;; c2" := (bind c1 (fun _ => c2))
  (at level 61, right associativity) : py_scope.
Local Open Scope py_scope.

(** Modelled from the spec: the log sink [logger] of [utils.utils_logger],
    which is not among the sources.  It accepts severity-levelled
    messages; they are kept in the order they are logged, and logging
    returns. *)
Definition logger (l : level) (m : log_msg) : M unit :=
  fun st =>
    (Return tt,
     {| author_counts := author_counts st;
        author_sentiments := author_sentiments st;
        logged := logged st ++ [{| lvl := l; msg := m |}];
        plt_calls := plt_calls st;
        consumer_closed := consumer_closed st |}).

Definition set_author_counts (t : table Z) : M unit :=
  fun st =>
    (Return tt,
     {| author_counts := t;
        author_sentiments := author_sentiments st;
        logged := logged st;
        plt_calls := plt_calls st;
        consumer_closed := consumer_closed st |}).

Definition set_author_sentiments (t : table (list float)) : M unit :=
  fun st =>
    (Return tt,
     {| author_counts := author_counts st;
        author_sentiments := t;
        logged := logged st;
        plt_calls := plt_calls st;
        consumer_closed := consumer_closed st |}).

(** [consumer.close()]: the calls are counted. *)
Definition consumer_close : M unit :=
  fun st =>
    (Return tt,
     {| author_counts := author_counts st;
        author_sentiments := author_sentiments st;
        logged := logged st;
        plt_calls := plt_calls st;
        consumer_closed := S (consumer_closed st) |}).

(* ================================================================= *)
(** ** The module's functions *)

(** [sum(scores)]: the floats added left to right, starting from [0].
    (CPython from 3.12 on adds a compensation term to this sum; it is zero
    when every partial sum is exact, as in the examples below.) *)
Definition py_sum (scores : list float) : float :=
  fold_left PrimFloat.add scores 0%float.

Definition len {A} (l : list A) : Z := Z.of_nat (List.length l).

(** [x / n] for a float [x] and the length [n] of a list. *)
Definition truediv (x : float) (n : Z) : outcome float :=
  if n =? 0 then Raise ZeroDivisionError
  else Return (PrimFloat.div x (PrimFloat.of_uint63 (Uint63.of_Z n))).

(** [[sum(scores) / len(scores) for scores in vals]]. *)
Fixpoint avg_comprehension (vals : list (list float))
  : outcome (list float) :=
  match vals with
  | [] => Return []
  | scores :: rest =>
      match truediv (py_sum scores) (len scores) with
      | Raise e => Raise e
      | Return avg =>
          match avg_comprehension rest with
          | Raise e => Raise e
          | Return avgs => Return (avg :: avgs)
          end
      end
  end.

Section Consumer.

Context (E : env).

Definition get_kafka_topic : M string :=
  let topic :=
    match getenv E "BUZZ_TOPIC" with
    | Some t => t
    | None => "unknown_topic"
    end in
  logger INFO (Kafka_topic topic) ;;
  ret topic.

Definition get_kafka_consumer_group_id : M string :=
  let group_id :=
    match getenv E "BUZZ_CONSUMER_GROUP_ID" with
    | Some g => g
    | None => "default_group"
    end in
  logger INFO (Kafka_consumer_group_id group_id) ;;
  ret group_id.

(** One Matplotlib call: it is made, and returns or raises. *)
Definition plt (c : plt_call) : M unit :=
  fun st =>
    let st' :=
      {| author_counts := author_counts st;
         author_sentiments := author_sentiments st;
         logged := logged st;
         plt_calls := plt_calls st ++ [c];
         consumer_closed := consumer_closed st |} in
    match matplotlib E c with
    | None => (Return tt, st')
    | Some e => (Raise e, st')
    end.

Definition update_chart : M unit :=
  plt (ax_clear ax_count) ;;
  st <- get ;;
  let authors_list := keys (author_counts st) in
  let counts_list := values (author_counts st) in
  plt (ax_bar ax_count authors_list (map PyInt counts_list) "skyblue") ;;
  plt (ax_set_xlabel ax_count "Authors") ;;
  plt (ax_set_ylabel ax_count "Message Counts") ;;
  plt (ax_set_title ax_count "Real-Time Author Message Counts") ;;
  plt (ax_set_xticklabels ax_count authors_list) ;;
  plt plt_tight_layout ;;
  plt plt_draw ;;
  plt plt_pause.

Definition update_sentiment_chart : M unit :=
  plt (ax_clear ax_sentiment) ;;
  st <- get ;;
  let authors := keys (author_sentiments st) in
  avg_sentiments <- lift (avg_comprehension (values (author_sentiments st))) ;;
  plt (ax_bar ax_sentiment authors (map PyFloat avg_sentiments)
         "lightgreen") ;;
  plt (ax_set_xlabel ax_sentiment "Authors") ;;
  plt (ax_set_ylabel ax_sentiment "Average Sentiment") ;;
  plt (ax_set_title ax_sentiment
         "Real-TimeSentiment Distribution By Author") ;;
  plt (ax_set_xticklabels ax_sentiment authors) ;;
  plt plt_tight_layout ;;
  plt plt_draw ;;
  plt plt_pause.

Definition analyze_sentiment (message : pyval) : M float :=
  lift (TextBlob_polarity E message).

(** [author_sentiments[author].append(sentiment_score)] *)
Definition append_sentiment (author : pyval) (sentiment_score : float)
  : M unit :=
  if hashable author then
    st <- get ;;
    set_author_sentiments
      (defaultdict_update [] (fun scores => scores ++ [sentiment_score])
         author (author_sentiments st))
  else raise TypeError.

(** [author_counts[author] += 1] *)
Definition increment_count (author : pyval) : M unit :=
  if hashable author then
    st <- get ;;
    set_author_counts
      (defaultdict_update 0 (fun n => n + 1) author (author_counts st))
  else raise TypeError.

(** The [try] suite of [process_message]. *)
Definition process_message_try (message : string) : M unit :=
  logger DEBUG (Raw_message message) ;;
  message_dict <- lift (json_loads E message) ;;
  logger INFO (Processed_JSON_message message_dict) ;;
  match message_dict with
  | PyDict d =>
      let author := dict_get d "author" (PyStr "unknown") in
      let message_text := dict_get d "message" (PyStr "") in
      sentiment_score <- analyze_sentiment message_text ;;
      logger INFO (Sentiment_score_for_message sentiment_score) ;;
      append_sentiment author sentiment_score ;;
      increment_count author ;;
      st <- get ;;
      logger INFO (Updated_author_counts (author_counts st)) ;;
      update_chart ;;
      update_sentiment_chart ;;
      logger INFO (Charts_updated_successfully message)
  | _ => logger ERROR (Expected_a_dictionary message_dict)
  end.

(** Its [except json.JSONDecodeError] and [except Exception] clauses. *)
Definition process_message_except (message : string) (e : exn)
  : option (M unit) :=
  match e with
  | JSONDecodeError => Some (logger ERROR (Invalid_JSON_message message))
  | _ =>
      if is_Exception e
      then Some (logger ERROR (Error_processing_message e))
      else None
  end.

Definition process_message (message : string) : M unit :=
  try_except (process_message_try message)
    (process_message_except message).

(** [for message in consumer: ...] of [main]. *)
Fixpoint for_message_in (consumer : list pull) : M unit :=
  match consumer with
  | [] => ret tt
  | Raises e :: _ => raise e
  | Yield message :: rest =>
      let message_str := value message in
      logger DEBUG
        (Received_message_at_offset (offset message) message_str) ;;
      process_message message_str ;;
      for_message_in rest
  end.

Definition main_except (e : exn) : option (M unit) :=
  match e with
  | KeyboardInterrupt => Some (logger WARNING Consumer_interrupted_by_user)
  | _ =>
      if is_Exception e
      then Some (logger ERROR (Error_while_consuming_messages e))
      else None
  end.

(** The [try ... except ... finally] of [main]. *)
Definition main_poll (topic : string) (consumer : list pull) : M unit :=
  try_finally
    (try_except (for_message_in consumer) main_except)
    (consumer_close ;;
     logger INFO (Kafka_consumer_closed topic)).

Definition main : M unit :=
  logger INFO START_consumer ;;
  topic <- get_kafka_topic ;;
  group_id <- get_kafka_consumer_group_id ;;
  logger INFO (Consumer_topic_and_group topic group_id) ;;
  consumer <- lift (create_kafka_consumer E topic group_id) ;;
  logger INFO (Polling_messages topic) ;;
  main_poll topic consumer ;;
  logger INFO (END_consumer topic group_id).

End Consumer.

(* ================================================================= *)
(** ** Sample payloads and libraries for the examples *)

Definition dquote : string := String (ascii_of_nat 34) EmptyString.

Definition quoted (s : string) : string := (dquote ++ s ++ dquote)%string.

(** The text [{"k1": v1, "k2": v2}] from the texts of the values. *)
Definition json_text (fields : list (string * string)) : string :=
  ("{" ++ String.concat ", "
            (map (fun kv => quoted (fst kv) ++ ": " ++ snd kv) fields) ++ "}")%string.

Definition payload_a_great : string :=
  json_text [("author", quoted "a"); ("message", quoted "great")].
Definition payload_b_bad : string :=
  json_text [("author", quoted "b"); ("message", quoted "bad")].
Definition payload_a_ok : string :=
  json_text [("author", quoted "a"); ("message", quoted "ok")].
Definition payload_no_author : string :=
  json_text [("message", quoted "great")].
Definition payload_no_message : string :=
  json_text [("author", quoted "a")].
Definition payload_no_fields : string := json_text [].
Definition payload_null_author : string :=
  json_text [("author", "null"); ("message", quoted "hi")].
Definition payload_list_author : string :=
  json_text [("author", "[]"); ("message", quoted "hi")].
Definition payload_true_author : string :=
  json_text [("author", "true"); ("message", quoted "hi")].
Definition payload_one_author : string :=
  json_text [("author", "1"); ("message", quoted "hi")].
Definition payload_number_message : string :=
  json_text [("author", quoted "a"); ("message", "5")].
Definition payload_array : string := "[1, 2]".
Definition payload_not_json : string := "not json".

(** [json.loads] on the payloads above; [payload_not_json] and any other
    text stand for undecodable input. *)
Definition sample_documents : list (string * pyval) :=
  [ (payload_a_great,
     PyDict [("author", PyStr "a"); ("message", PyStr "great")]);
    (payload_b_bad,
     PyDict [("author", PyStr "b"); ("message", PyStr "bad")]);
    (payload_a_ok,
     PyDict [("author", PyStr "a"); ("message", PyStr "ok")]);
    (payload_no_author, PyDict [("message", PyStr "great")]);
    (payload_no_message, PyDict [("author", PyStr "a")]);
    (payload_no_fields, PyDict []);
    (payload_null_author,
     PyDict [("author", PyNone); ("message", PyStr "hi")]);
    (payload_list_author,
     PyDict [("author", PyList []); ("message", PyStr "hi")]);
    (payload_true_author,
     PyDict [("author", PyBool true); ("message", PyStr "hi")]);
    (payload_one_author,
     PyDict [("author", PyInt 1); ("message", PyStr "hi")]);
    (payload_number_message,
     PyDict [("author", PyStr "a"); ("message", PyInt 5)]);
    (payload_array, PyList [PyInt 1; PyInt 2]) ].

Fixpoint sample_loads_in (docs : list (string * pyval)) (message : string)
  : outcome pyval :=
  match docs with
  | [] => Raise JSONDecodeError
  | (text, v) :: docs' =>
      if String.eqb text message then Return v
      else sample_loads_in docs' message
  end.

Definition sample_json_loads : string -> outcome pyval :=
  sample_loads_in sample_documents.

(** A scorer giving great 0.8, bad -0.6 and any other text 0.0, and
    raising [TypeError] on a value that is not a string. *)
Definition sample_polarity (message : pyval) : outcome float :=
  match message with
  | PyStr s =>
      if String.eqb s "great" then Return 0.8%float
      else if String.eqb s "bad" then Return (-0.6)%float
      else Return 0%float
  | _ => Raise TypeError
  end.

Definition sample_getenv (name : string) : option string :=
  if String.eqb name "BUZZ_TOPIC" then Some "buzzline" else None.

Definition sample_consumer : list pull :=
  [ Yield {| value := payload_a_great; offset := 0 |};
    Yield {| value := payload_b_bad; offset := 1 |};
    Yield {| value := payload_a_ok; offset := 2 |} ].

(** Every Matplotlib call returns. *)
Definition sample_env : env :=
  {| getenv := sample_getenv;
     json_loads := sample_json_loads;
     TextBlob_polarity := sample_polarity;
     matplotlib := fun _ => None;
     create_kafka_consumer := fun _ _ => Return sample_consumer |}.

(** Drawing the sentiment bars raises. *)
Definition broken_plot_env : env :=
  {| getenv := sample_getenv;
     json_loads := sample_json_loads;
     TextBlob_polarity := sample_polarity;
     matplotlib := fun c =>
       match c with
       | ax_bar ax_sentiment _ _ _ => Some OtherError
       | _ => None
       end;
     create_kafka_consumer := fun _ _ => Return sample_consumer |}.

(** [plt.pause] is interrupted from the keyboard. *)
Definition interrupted_env : env :=
  {| getenv := sample_getenv;
     json_loads := sample_json_loads;
     TextBlob_polarity := sample_polarity;
     matplotlib := fun c =>
       match c with
       | plt_pause => Some KeyboardInterrupt
       | _ => None
       end;
     create_kafka_consumer := fun _ _ => Return sample_consumer |}.

(* ================================================================= *)
(** ** Notions used to state the properties *)

Definition tables (st : state) : table Z * table (list float) :=
  (author_counts st, author_sentiments st).

(** [sum(author_counts.values())] *)
Definition sum_counts (t : table Z) : Z := fold_right Z.add 0 (values t).

Definition is_error (r : log_record) : bool :=
  match lvl r with ERROR => true | _ => false end.

(** Number of error-level records logged so far. *)
Definition errors_logged (st : state) : nat :=
  List.length (filter is_error (logged st)).

(** The arithmetic mean of a non-empty list of scores, as the chart
    computes it. *)
Definition mean (scores : list float) : float :=
  PrimFloat.div (py_sum scores) (PrimFloat.of_uint63 (Uint63.of_Z (len scores))).

(** The tables after lines 170 and 173 for an author and a score: the
    score appended to the author's list and one added to its count. *)
Definition record (author : pyval) (score : float)
  (t : table Z * table (list float)) : table Z * table (list float) :=
  (defaultdict_update 0 (fun n => n + 1) author (fst t),
   defaultdict_update [] (fun scores => scores ++ [score]) author (snd t)).

(** The author and score a payload contributes to the tables: it decodes
    to an object, its text is scored and its author can be a key. *)
Definition contribution (E : env) (message : string)
  : option (pyval * float) :=
  match json_loads E message with
  | Return (PyDict d) =>
      match TextBlob_polarity E (dict_get d "message" (PyStr "")) with
      | Return score =>
          let author := dict_get d "author" (PyStr "unknown") in
          if hashable author then Some (author, score) else None
      | Raise _ => None
      end
  | _ => None
  end.

Definition record_contribution (c : option (pyval * float))
  (t : table Z * table (list float)) : table Z * table (list float) :=
  match c with
  | Some (author, score) => record author score t
  | None => t
  end.

(** [seen] with the key [a] added at the end unless it is there. *)
Definition add_key (seen : list pyval) (a : pyval) : list pyval :=
  if existsb (fun k => key_eqb k a) seen then seen else seen ++ [a].

(** The keys of a sequence of authors in order of first appearance. *)
Definition first_seen (authors : list pyval) : list pyval :=
  fold_left add_key authors [].

(** The payloads a consumer yields before it stops. *)
Fixpoint payloads (consumer : list pull) : list string :=
  match consumer with
  | Yield r :: rest => value r :: payloads rest
  | _ => []
  end.

Fixpoint contributions (E : env) (messages : list string)
  : list (pyval * float) :=
  match messages with
  | [] => []
  | m :: rest =>
      match contribution E m with
      | Some c => c :: contributions E rest
      | None => contributions E rest
      end
  end.

(** The two tables agree: the same keys, and as many scores as counted. *)
Definition synchronized (st : state) : Prop :=
  forall k : pyval,
    match lookup k (author_counts st), lookup k (author_sentiments st) with
    | Some n, Some scores => n = len scores
    | None, None => True
    | _, _ => False
    end.

(** A statement leaves a part of the state as it found it. *)
Definition keeps {X A} (f : state -> X) (m : M A) : Prop :=
  forall st, f (snd (m st)) = f st.

(** The charts and the last log record of the [try] suite. *)
Definition render (E : env) (message : string) : M unit :=
  update_chart E ;;
  update_sentiment_chart E ;;
  logger INFO (Charts_updated_successfully message).

(** The count table that goes with a sentiment table. *)
Definition counted (t : table (list float)) : table Z :=
  map (fun kv => (fst kv, len (snd kv))) t.

Definition in_step (t : table Z * table (list float)) : Prop :=
  fst t = counted (snd t).

(** Every list of scores in the table has a score. *)
Definition scored (t : table (list float)) : Prop :=
  Forall (fun kv => snd kv <> []) t.

(** The Matplotlib calls of [update_chart] on a count table. *)
Definition count_chart_calls (counts : table Z) : list plt_call :=
  [ ax_clear ax_count;
    ax_bar ax_count (keys counts) (map PyInt (values counts)) "skyblue";
    ax_set_xlabel ax_count "Authors";
    ax_set_ylabel ax_count "Message Counts";
    ax_set_title ax_count "Real-Time Author Message Counts";
    ax_set_xticklabels ax_count (keys counts);
    plt_tight_layout; plt_draw; plt_pause ].

(** Those of [update_sentiment_chart] on a sentiment table whose lists
    all have a score. *)
Definition sentiment_chart_calls (sentiments : table (list float))
  : list plt_call :=
  [ ax_clear ax_sentiment;
    ax_bar ax_sentiment (keys sentiments)
      (map PyFloat (map mean (values sentiments))) "lightgreen";
    ax_set_xlabel ax_sentiment "Authors";
    ax_set_ylabel ax_sentiment "Average Sentiment";
    ax_set_title ax_sentiment "Real-TimeSentiment Distribution By Author";
    ax_set_xticklabels ax_sentiment (keys sentiments);
    plt_tight_layout; plt_draw; plt_pause ].

Definition add_plt_calls (calls : list plt_call) (st : state) : state :=
  {| author_counts := author_counts st;
     author_sentiments := author_sentiments st;
     logged := logged st;
     plt_calls := plt_calls st ++ calls;
     consumer_closed := consumer_closed st |}.

(** The state a recorded and drawn message leaves. *)
Definition recorded_state (m : string) (d : list (string * pyval))
  (author : pyval) (score : float) (st : state) : state :=
  let t := record author score (tables st) in
  {| author_counts := fst t;
     author_sentiments := snd t;
     logged :=
       logged st
       ++ [ {| lvl := DEBUG; msg := Raw_message m |};
            {| lvl := INFO; msg := Processed_JSON_message (PyDict d) |};
            {| lvl := INFO; msg := Sentiment_score_for_message score |};
            {| lvl := INFO; msg := Updated_author_counts (fst t) |};
            {| lvl := INFO; msg := Charts_updated_successfully m |} ];
     plt_calls :=
       plt_calls st
       ++ count_chart_calls (fst t) ++ sentiment_chart_calls (snd t);
     consumer_closed := consumer_closed st |}.

(** The value at [k], or [dflt] for a key not yet in the table. *)
Definition value_at {V} (dflt : V) (k : pyval) (t : table V) : V :=
  match lookup k t with
  | Some v => v
  | None => dflt
  end.

Definition record_all (cs : list (pyval * float))
  (t : table Z * table (list float)) : table Z * table (list float) :=
  fold_left (fun t c => record (fst c) (snd c) t) cs t.




(** The record the [except] clauses log for [e]. *)
Definition except_msg (m : string) (e : exn) : log_msg :=
  match e with
  | JSONDecodeError => Invalid_JSON_message m
  | _ => Error_processing_message e
  end.

(** The state when the tables have been updated and the charts are about
    to be drawn. *)
Definition updated_state (m : string) (d : list (string * pyval))
  (author : pyval) (score : float) (st : state) : state :=
  let t := record author score (tables st) in
  {| author_counts := fst t;
     author_sentiments := snd t;
     logged :=
       logged st
       ++ [ {| lvl := DEBUG; msg := Raw_message m |};
            {| lvl := INFO; msg := Processed_JSON_message (PyDict d) |};
            {| lvl := INFO; msg := Sentiment_score_for_message score |};
            {| lvl := INFO; msg := Updated_author_counts (fst t) |} ];
     plt_calls := plt_calls st;
     consumer_closed := consumer_closed st |}.

(** No library call made for a message raises anything but an
    [Exception]. *)
Definition raises_Exceptions_only (E : env) : Prop :=
  (forall m e, json_loads E m = Raise e -> is_Exception e = true)
  /\ (forall v e, TextBlob_polarity E v = Raise e -> is_Exception e = true)
  /\ (forall c e, matplotlib E c = Some e -> is_Exception e = true).

(** A statement raises only exceptions in [P]. *)
Definition raises_only {A} (P : exn -> Prop) (m : M A) : Prop :=
  forall st e, fst (m st) = Raise e -> P e.

(** The axes and labels of the [bar] calls, in the order they were made. *)
Definition bars_drawn (calls : list plt_call) : list (axes * list pyval) :=
  flat_map
    (fun c =>
       match c with
       | ax_bar ax x _ _ => [(ax, x)]
       | _ => []
       end)
    calls.

(** The [bar] calls a sequence of recorded authors leads to, starting with
    the keys [seen]: both panels after each, with the keys seen so far. *)
Fixpoint expected_bars (seen : list pyval) (authors : list pyval)
  : list (axes * list pyval) :=
  match authors with
  | [] => []
  | a :: rest =>
      (ax_count, add_key seen a) :: (ax_sentiment, add_key seen a)
      :: expected_bars (add_key seen a) rest
  end.

(* ================================================================= *)
(** ** Notions for the properties of the whole module *)

(** [os.getenv("BUZZ_TOPIC", "unknown_topic")] and
    [os.getenv("BUZZ_CONSUMER_GROUP_ID", "default_group")]. *)
Definition configured_topic (E : env) : string :=
  match getenv E "BUZZ_TOPIC" with
  | Some t => t
  | None => "unknown_topic"
  end.

Definition configured_group_id (E : env) : string :=
  match getenv E "BUZZ_CONSUMER_GROUP_ID" with
  | Some g => g
  | None => "default_group"
  end.

(** [st] with the records [new] logged after those it has. *)
Definition add_logged (new : list log_record) (st : state) : state :=
  {| author_counts := author_counts st;
     author_sentiments := author_sentiments st;
     logged := logged st ++ new;
     plt_calls := plt_calls st;
     consumer_closed := consumer_closed st |}.

(** What [main] has logged when it creates the consumer. *)
Definition main_preamble (E : env) : list log_record :=
  [ {| lvl := INFO; msg := START_consumer |};
    {| lvl := INFO; msg := Kafka_topic (configured_topic E) |};
    {| lvl := INFO; msg := Kafka_consumer_group_id (configured_group_id E) |};
    {| lvl := INFO;
       msg := Consumer_topic_and_group (configured_topic E)
                (configured_group_id E) |} ].

(** The calls of [calls] made against a backend, up to and including the
    first that raises, with the exception it raises. *)
Fixpoint calls_until_raise (backend : plt_call -> option exn)
  (calls : list plt_call) : list plt_call * option exn :=
  match calls with
  | [] => ([], None)
  | c :: rest =>
      match backend c with
      | Some e => ([c], Some e)
      | None =>
          (c :: fst (calls_until_raise backend rest),
           snd (calls_until_raise backend rest))
      end
  end.

Definition outcome_of (r : option exn) : outcome unit :=
  match r with
  | None => Return tt
  | Some e => Raise e
  end.

(** The Matplotlib calls [calls] made one after the other. *)
Fixpoint plt_all (E : env) (calls : list plt_call) : M unit :=
  match calls with
  | [] => ret tt
  | [c] => plt E c
  | c :: rest => plt E c ;; plt_all E rest
  end.

(** The scores contributed under the key [k], in order. *)
Definition scores_of (k : pyval) (cs : list (pyval * float)) : list float :=
  map snd (filter (fun c => key_eqb (fst c) k) cs).

(** The keys are hashable and no two of them are equal. *)
Fixpoint distinct_keys (l : list pyval) : bool :=
  match l with
  | [] => true
  | k :: rest =>
      hashable k && negb (existsb (fun k' => key_eqb k k') rest)
      && distinct_keys rest
  end.

(** The records the [except] and [finally] clauses of [main] log after the
    loop has ended with [r]. *)
Definition main_closing (topic : string) (r : outcome unit)
  : list log_record :=
  match r with
  | Raise KeyboardInterrupt =>
      [ {| lvl := WARNING; msg := Consumer_interrupted_by_user |} ]
  | Raise e =>
      if is_Exception e
      then [ {| lvl := ERROR; msg := Error_while_consuming_messages e |} ]
      else []
  | Return _ => []
  end
  ++ [ {| lvl := INFO; msg := Kafka_consumer_closed topic |} ].

(** Every list of scores has a score. *)
Definition all_scored (vals : list (list float)) : bool :=
  forallb (fun scores => negb (len scores =? 0)) vals.

(** A state as it cannot arise in a run: an author with no score. *)
Definition unscored_state : state :=
  {| author_counts := [(PyStr "a", 0)];
     author_sentiments := [(PyStr "a", [])];
     logged := [];
     plt_calls := [];
     consumer_closed := 0 |}.

(** [st] after [consumer.close()], with the records [new] logged. *)
Definition close_with (new : list log_record) (st : state) : state :=
  {| author_counts := author_counts st;
     author_sentiments := author_sentiments st;
     logged := logged st ++ new;
     plt_calls := plt_calls st;
     consumer_closed := S (consumer_closed st) |}.

(** How the [try] of [main] ends when its loop has ended with [r]: only
    an exception that is neither a [KeyboardInterrupt] nor an [Exception]
    goes on. *)
Definition main_outcome (r : outcome unit) : outcome unit :=
  match r with
  | Raise SystemExit => Raise SystemExit
  | _ => Return tt
  end.

(** The state in which [main] enters its loop. *)
Definition main_polling (E : env) (st : state) : state :=
  add_logged
    (main_preamble E
     ++ [ {| lvl := INFO; msg := Polling_messages (configured_topic E) |} ])
    st.

(** [create_kafka_consumer] raises: no broker. *)
Definition no_broker_env : env :=
  {| getenv := sample_getenv;
     json_loads := sample_json_loads;
     TextBlob_polarity := sample_polarity;
     matplotlib := fun _ => None;
     create_kafka_consumer := fun _ _ => Raise OtherError |}.

(** [json.loads] is given a payload that is not text, or is interrupted. *)
Definition bad_payload_env (e : exn) : env :=
  {| getenv := sample_getenv;
     json_loads := fun _ => Raise e;
     TextBlob_polarity := sample_polarity;
     matplotlib := fun _ => None;
     create_kafka_consumer := fun _ _ => Return sample_consumer |}.

(* ================================================================= *)
(** ** The model on the sample payloads *)

Example key_eqb_numbers :
  key_eqb (PyBool true) (PyInt 1) = true
  /\ key_eqb (PyInt 1) (PyFloat 1) = true
  /\ key_eqb (PyFloat 0.5) (PyInt 0) = false
  /\ key_eqb (PyStr "1") (PyInt 1) = false
  /\ key_eqb PyNone PyNone = true
  /\ key_eqb (PyList []) (PyList []) = false.
Proof. repeat split. Qed.

(** [true] after [1] as the author is counted under the key [1]. *)
Example author_true_counted_under_one :
  author_counts
    (snd (for_message_in sample_env
            [ Yield {| value := payload_one_author; offset := 0 |};
              Yield {| value := payload_true_author; offset := 1 |} ]
            initial_state))
  = [(PyInt 1, 2)].
Proof. vm_compute. reflexivity. Qed.

Example no_fields_counted_under_unknown :
  tables (snd (process_message sample_env payload_no_fields initial_state))
  = ([(PyStr "unknown", 1)], [(PyStr "unknown", [0%float])]).
Proof. vm_compute. reflexivity. Qed.

Example main_sample :
  fst (main sample_env initial_state) = Return tt
  /\ tables (snd (main sample_env initial_state))
     = ([(PyStr "a", 2); (PyStr "b", 1)],
        [(PyStr "a", [0.8%float; 0%float]); (PyStr "b", [(-0.6)%float])])
  /\ errors_logged (snd (main sample_env initial_state)) = 0%nat
  /\ consumer_closed (snd (main sample_env initial_state)) = 1%nat.
Proof. repeat split; vm_compute; reflexivity. Qed.

(* ================================================================= *)
(** ** Frame lemmas *)

Lemma keeps_bind {X A B} (f : state -> X) (m : M A) (k : A -> M B) :
  keeps f m -> (forall a, keeps f (k a)) -> keeps f (bind m k).
Proof.
  intros Hm Hk st. unfold bind.
  specialize (Hm st). destruct (m st) as [[a | e] st']; simpl in *.
  - rewrite Hk. exact Hm.
  - exact Hm.
Qed.

Lemma keeps_ret {X A} (f : state -> X) (a : A) : keeps f (ret a).
Proof. intro st. reflexivity. Qed.

Lemma keeps_raise {X A} (f : state -> X) (e : exn) : keeps f (@raise A e).
Proof. intro st. reflexivity. Qed.

Lemma keeps_lift {X A} (f : state -> X) (o : outcome A) : keeps f (lift o).
Proof. intro st. reflexivity. Qed.

Lemma keeps_get {X} (f : state -> X) : keeps f get.
Proof. intro st. reflexivity. Qed.

Lemma keeps_try_except {X A} (f : state -> X) (body : M A)
  (handlers : exn -> option (M A)) :
  keeps f body ->
  (forall e h, handlers e = Some h -> keeps f h) ->
  keeps f (try_except body handlers).
Proof.
  intros Hb Hh st. unfold try_except.
  specialize (Hb st). destruct (body st) as [[a | e] st']; simpl in *.
  - exact Hb.
  - destruct (handlers e) as [h |] eqn:He; simpl.
    + rewrite (Hh e h He). exact Hb.
    + exact Hb.
Qed.

(** After [m], a continuation that keeps [f] leaves [f] as [m] left it. *)
Lemma bind_keeps_snd {X A B} (f : state -> X) (m : M A) (k : A -> M B) st :
  (forall a, keeps f (k a)) -> f (snd (bind m k st)) = f (snd (m st)).
Proof.
  intros Hk. unfold bind. destruct (m st) as [[a | e] st']; simpl.
  - apply Hk.
  - reflexivity.
Qed.

Lemma keeps_logger_tables l m : keeps tables (logger l m).
Proof. intro st. reflexivity. Qed.

Lemma keeps_logger_plt l m : keeps plt_calls (logger l m).
Proof. intro st. reflexivity. Qed.

Lemma keeps_logger_closed l m : keeps consumer_closed (logger l m).
Proof. intro st. reflexivity. Qed.

Lemma keeps_plt_tables E c : keeps tables (plt E c).
Proof. intro st. unfold plt. destruct (matplotlib E c); reflexivity. Qed.

Lemma keeps_plt_closed E c : keeps consumer_closed (plt E c).
Proof. intro st. unfold plt. destruct (matplotlib E c); reflexivity. Qed.

Lemma keeps_plt_logged E c : keeps logged (plt E c).
Proof. intro st. unfold plt. destruct (matplotlib E c); reflexivity. Qed.

Create HintDb frame discriminated.
#[local] Hint Resolve keeps_ret keeps_raise keeps_lift keeps_get
  keeps_logger_tables keeps_logger_plt keeps_logger_closed
  keeps_plt_tables keeps_plt_closed keeps_plt_logged : frame.

(** Splits a sequence of statements into its calls and frames each. *)
Ltac frame :=
  repeat (apply keeps_bind; [ | intros ? ]);
  auto with frame.

Lemma keeps_update_chart_tables E : keeps tables (update_chart E).
Proof. unfold update_chart. frame. Qed.

Lemma keeps_update_sentiment_chart_tables E :
  keeps tables (update_sentiment_chart E).
Proof. unfold update_sentiment_chart. frame. Qed.

Lemma keeps_update_chart_closed E : keeps consumer_closed (update_chart E).
Proof. unfold update_chart. frame. Qed.

Lemma keeps_update_sentiment_chart_closed E :
  keeps consumer_closed (update_sentiment_chart E).
Proof. unfold update_sentiment_chart. frame. Qed.

Lemma keeps_update_chart_logged E : keeps logged (update_chart E).
Proof. unfold update_chart. frame. Qed.

Lemma keeps_update_sentiment_chart_logged E :
  keeps logged (update_sentiment_chart E).
Proof. unfold update_sentiment_chart. frame. Qed.

#[local] Hint Resolve keeps_update_chart_tables
  keeps_update_sentiment_chart_tables keeps_update_chart_closed
  keeps_update_sentiment_chart_closed keeps_update_chart_logged
  keeps_update_sentiment_chart_logged : frame.

Lemma keeps_append_sentiment_closed a s :
  keeps consumer_closed (append_sentiment a s).
Proof.
  unfold append_sentiment. destruct (hashable a); frame.
  intro st. reflexivity.
Qed.

Lemma keeps_increment_count_closed a :
  keeps consumer_closed (increment_count a).
Proof.
  unfold increment_count. destruct (hashable a); frame.
  intro st. reflexivity.
Qed.

#[local] Hint Resolve keeps_append_sentiment_closed
  keeps_increment_count_closed : frame.

Lemma keeps_process_message_closed E m :
  keeps consumer_closed (process_message E m).
Proof.
  unfold process_message. apply keeps_try_except.
  - unfold process_message_try, analyze_sentiment.
    apply keeps_bind; [ auto with frame | intros _ ].
    apply keeps_bind; [ auto with frame | intros v ].
    apply keeps_bind; [ auto with frame | intros _ ].
    destruct v; frame.
  - intros e h He. unfold process_message_except in He.
    destruct e; simpl in He; inversion He; auto with frame.
Qed.

(* ================================================================= *)
(** ** What one message does to the tables *)

Lemma try_except_keeps_snd {X A} (f : state -> X) (body : M A)
  (handlers : exn -> option (M A)) st :
  (forall e h, handlers e = Some h -> keeps f h) ->
  f (snd (try_except body handlers st)) = f (snd (body st)).
Proof.
  intros Hh. unfold try_except.
  destruct (body st) as [[a | e] st']; simpl; [ reflexivity | ].
  destruct (handlers e) as [h |] eqn:He; simpl; [ | reflexivity ].
  apply (Hh e h He).
Qed.

Lemma process_message_except_logs m e h :
  process_message_except m e = Some h ->
  exists msg, h = logger ERROR msg.
Proof.
  unfold process_message_except.
  destruct e; simpl; intros H; inversion H; eauto.
Qed.

Lemma keeps_process_message_except_tables m e h :
  process_message_except m e = Some h -> keeps tables h.
Proof.
  intros H. destruct (process_message_except_logs _ _ H) as [msg ->].
  auto with frame.
Qed.

Lemma keeps_render_tables E m : keeps tables (render E m).
Proof. unfold render. frame. Qed.

Lemma process_message_try_tables E m st :
  tables (snd (process_message_try E m st))
  = record_contribution (contribution E m) (tables st).
Proof.
  unfold process_message_try, contribution, analyze_sentiment.
  unfold bind at 1. simpl.
  unfold bind at 1. unfold lift at 1.
  destruct (json_loads E m) as [v | e]; [ | reflexivity ].
  unfold bind at 1. simpl.
  destruct v; try reflexivity.
  unfold bind at 1. unfold lift at 1.
  destruct (TextBlob_polarity E (dict_get d "message" (PyStr "")))
    as [score | e]; [ | reflexivity ].
  unfold bind at 1. simpl.
  unfold bind at 1. unfold append_sentiment, increment_count.
  destruct (hashable (dict_get d "author" (PyStr "unknown")));
    [ | reflexivity ].
  simpl.
  change (fun _ : unit =>
            update_chart E ;;
            update_sentiment_chart E ;;
            logger INFO (Charts_updated_successfully m))
    with (fun _ : unit => render E m).
  match goal with
  | |- tables (snd (bind ?c ?k ?s)) = _ =>
      rewrite (@bind_keeps_snd _ _ _ tables c k s);
      [ | intros ?; frame; apply keeps_render_tables ]
  end.
  reflexivity.
Qed.

Lemma process_message_tables E m st :
  tables (snd (process_message E m st))
  = record_contribution (contribution E m) (tables st).
Proof.
  unfold process_message.
  rewrite try_except_keeps_snd
    by apply keeps_process_message_except_tables.
  apply process_message_try_tables.
Qed.

(** One turn of the loop. *)
Lemma for_message_in_Yield E r rest st :
  for_message_in E (Yield r :: rest) st
  = match process_message E (value r)
            (snd (logger DEBUG
                    (Received_message_at_offset (offset r) (value r)) st))
    with
    | (Return _, st') => for_message_in E rest st'
    | (Raise e, st') => (Raise e, st')
    end.
Proof. reflexivity. Qed.

(** Any property of the tables that recording a score keeps holds along
    the whole loop. *)
Lemma for_message_in_tables_invariant E
  (P : table Z * table (list float) -> Prop) :
  (forall a s t, P t -> P (record a s t)) ->
  forall consumer st,
    P (tables st) -> P (tables (snd (for_message_in E consumer st))).
Proof.
  intros Hrec consumer.
  induction consumer as [| [r | e] rest IH]; intros st HP; simpl.
  - exact HP.
  - unfold bind at 1. simpl.
    unfold bind at 1.
    match goal with
    | |- context [process_message E ?m ?s] =>
        pose proof (process_message_tables E m s) as Ht;
        destruct (process_message E m s) as [[[] | e] st'] eqn:Hp
    end; simpl in *.
    + apply IH. rewrite Ht.
      destruct (contribution E (value r)) as [[a s] |]; simpl; auto.
    + rewrite Ht.
      destruct (contribution E (value r)) as [[a s] |]; simpl; auto.
  - exact HP.
Qed.

(* ================================================================= *)
(** ** The two tables move together *)

Lemma len_app_one {A} (l : list A) (x : A) : len (l ++ [x]) = len l + 1.
Proof. unfold len. rewrite length_app. simpl. lia. Qed.

Lemma counted_update a s (t : table (list float)) :
  defaultdict_update 0 (fun n => n + 1) a (counted t)
  = counted (defaultdict_update [] (fun scores => scores ++ [s]) a t).
Proof.
  induction t as [| [k scores] t IH]; simpl.
  - reflexivity.
  - destruct (key_eqb k a); simpl.
    + rewrite len_app_one. reflexivity.
    + rewrite IH. reflexivity.
Qed.

Lemma lookup_counted k (t : table (list float)) :
  lookup k (counted t) = option_map len (lookup k t).
Proof.
  induction t as [| [k' scores] t IH]; simpl.
  - reflexivity.
  - destruct (key_eqb k' k); simpl; auto.
Qed.

Lemma in_step_record a s t : in_step t -> in_step (record a s t).
Proof.
  unfold in_step, record. simpl. intros ->. apply counted_update.
Qed.

Lemma in_step_synchronized st : in_step (tables st) -> synchronized st.
Proof.
  unfold in_step, tables. simpl. intros H k. rewrite H, lookup_counted.
  destruct (lookup k (author_sentiments st)); simpl; auto.
Qed.

Lemma scored_update a s (t : table (list float)) :
  scored t ->
  scored (defaultdict_update [] (fun scores => scores ++ [s]) a t).
Proof.
  unfold scored. induction t as [| [k scores] t IH]; simpl; intros H.
  - constructor; [ simpl; discriminate | constructor ].
  - inversion H; subst. destruct (key_eqb k a).
    + constructor; [ simpl; destruct scores; discriminate | assumption ].
    + constructor; auto.
Qed.

Lemma truediv_len (scores : list float) :
  scores <> [] -> truediv (py_sum scores) (len scores) = Return (mean scores).
Proof.
  intros H. unfold truediv, mean.
  destruct scores as [| s scores]; [ congruence | ].
  unfold len. simpl List.length.
  destruct (Z.eqb_spec (Z.of_nat (S (List.length scores))) 0) as [Hz | _].
  - lia.
  - reflexivity.
Qed.

Lemma avg_comprehension_scored (t : table (list float)) :
  scored t -> avg_comprehension (values t) = Return (map mean (values t)).
Proof.
  unfold scored. induction t as [| [k scores] t IH]; simpl; intros H.
  - reflexivity.
  - inversion H; subst. simpl in *.
    rewrite truediv_len by assumption. rewrite IH by assumption.
    reflexivity.
Qed.

Lemma update_sentiment_chart_raises E st e :
  scored (author_sentiments st) ->
  fst (update_sentiment_chart E st) = Raise e ->
  exists c, matplotlib E c = Some e.
Proof.
  intros Hs. unfold update_sentiment_chart.
  unfold bind at 1. unfold plt at 1.
  destruct (matplotlib E (ax_clear ax_sentiment)) as [e0 |] eqn:H0; simpl.
  { intros [= ->]. eauto. }
  unfold bind at 1. simpl. unfold bind at 1. unfold lift at 1.
  rewrite (avg_comprehension_scored Hs).
  repeat
    (unfold bind at 1; unfold plt at 1;
     match goal with
     | |- context [matplotlib E ?c] =>
         destruct (matplotlib E c) eqn:?; simpl;
         [ intros [= ->]; eauto | ]
     end).
  unfold plt.
  match goal with
  | |- context [matplotlib E ?c] =>
      destruct (matplotlib E c) eqn:?; simpl;
      [ intros [= ->]; eauto | discriminate ]
  end.
Qed.

(* ================================================================= *)
(** ** C1, C9: the invariants of the two tables *)

(** C1. After the loop has processed any sequence of payloads, valid or
    not, starting from the empty tables, a key is in [author_counts]
    exactly when it is in [author_sentiments], and its count is the length
    of its list of scores. *)
Theorem C1_tables_synchronized (E : env) (consumer : list pull) :
  synchronized (snd (for_message_in E consumer initial_state)).
Proof.
  apply in_step_synchronized.
  apply (for_message_in_tables_invariant E in_step).
  - intros a s t. apply in_step_record.
  - reflexivity.
Qed.

(** C9. In every state reached by processing payloads from the empty
    tables, every key of [author_sentiments] has a non-empty list of
    scores, so the averages [sum(scores) / len(scores)] are all computed
    (no [ZeroDivisionError]), and whatever [update_sentiment_chart] raises
    with these tables was raised by a Matplotlib call. *)
Theorem C9_no_division_by_zero (E : env) (consumer : list pull) :
  let st := snd (for_message_in E consumer initial_state) in
  scored (author_sentiments st)
  /\ avg_comprehension (values (author_sentiments st))
     = Return (map mean (values (author_sentiments st)))
  /\ (forall st' e,
        author_sentiments st' = author_sentiments st ->
        fst (update_sentiment_chart E st') = Raise e ->
        exists c, matplotlib E c = Some e).
Proof.
  intros st.
  assert (Hs : scored (author_sentiments st)).
  { apply (for_message_in_tables_invariant E (fun t => scored (snd t))).
    - intros a s t H. simpl. apply scored_update. exact H.
    - simpl. constructor. }
  split; [ exact Hs | split ].
  - apply avg_comprehension_scored. exact Hs.
  - intros st' e Heq. apply update_sentiment_chart_raises.
    rewrite Heq. exact Hs.
Qed.

(* ================================================================= *)
(** ** C3: a payload that is not a JSON object *)

Lemma errors_logged_app st st' (new : list log_record) :
  logged st' = logged st ++ new ->
  errors_logged st' = (errors_logged st + List.length (filter is_error new))%nat.
Proof.
  unfold errors_logged. intros ->. rewrite filter_app, length_app.
  reflexivity.
Qed.

Lemma process_message_invalid_json E m st :
  json_loads E m = Raise JSONDecodeError ->
  process_message E m st
  = (Return tt,
     {| author_counts := author_counts st;
        author_sentiments := author_sentiments st;
        logged := (logged st ++ [{| lvl := DEBUG; msg := Raw_message m |}])
                  ++ [{| lvl := ERROR; msg := Invalid_JSON_message m |}];
        plt_calls := plt_calls st;
        consumer_closed := consumer_closed st |}).
Proof.
  intros H.
  unfold process_message, try_except, process_message_try.
  unfold bind at 1. simpl. unfold bind at 1. unfold lift at 1.
  rewrite H. reflexivity.
Qed.

Lemma process_message_not_dict E m st v :
  json_loads E m = Return v ->
  isinstance_dict v = false ->
  process_message E m st
  = (Return tt,
     {| author_counts := author_counts st;
        author_sentiments := author_sentiments st;
        logged := ((logged st ++ [{| lvl := DEBUG; msg := Raw_message m |}])
                   ++ [{| lvl := INFO; msg := Processed_JSON_message v |}])
                  ++ [{| lvl := ERROR; msg := Expected_a_dictionary v |}];
        plt_calls := plt_calls st;
        consumer_closed := consumer_closed st |}).
Proof.
  intros H Hv.
  unfold process_message, try_except, process_message_try.
  unfold bind at 1. simpl. unfold bind at 1. unfold lift at 1.
  rewrite H. unfold bind at 1. simpl.
  destruct v; try reflexivity. discriminate Hv.
Qed.

(** C3. A payload that [json.loads] rejects, or that decodes to a value
    that is not a dict, leaves both tables as they were, adds exactly one
    error-level log record, makes no Matplotlib call, and
    [process_message] returns. *)
Theorem C3_undecodable_payload_skipped (E : env) (m : string) (st : state) :
  json_loads E m = Raise JSONDecodeError
  \/ (exists v, json_loads E m = Return v /\ isinstance_dict v = false) ->
  fst (process_message E m st) = Return tt
  /\ author_counts (snd (process_message E m st)) = author_counts st
  /\ author_sentiments (snd (process_message E m st)) = author_sentiments st
  /\ errors_logged (snd (process_message E m st)) = S (errors_logged st)
  /\ plt_calls (snd (process_message E m st)) = plt_calls st.
Proof.
  intros [H | [v [H Hv]]].
  - rewrite (process_message_invalid_json E m st H). simpl.
    repeat split.
    rewrite (@errors_logged_app st _
               [{| lvl := DEBUG; msg := Raw_message m |};
                {| lvl := ERROR; msg := Invalid_JSON_message m |}]).
    + simpl. lia.
    + simpl. rewrite <- app_assoc. reflexivity.
  - rewrite (process_message_not_dict E m st H Hv). simpl.
    repeat split.
    rewrite (@errors_logged_app st _
               [{| lvl := DEBUG; msg := Raw_message m |};
                {| lvl := INFO; msg := Processed_JSON_message v |};
                {| lvl := ERROR; msg := Expected_a_dictionary v |}]).
    + simpl. lia.
    + simpl. rewrite <- !app_assoc. reflexivity.
Qed.

Lemma C3_witness :
  (fst (process_message sample_env payload_not_json initial_state)
   = Return tt
   /\ author_counts
        (snd (process_message sample_env payload_not_json initial_state))
      = []
   /\ author_sentiments
        (snd (process_message sample_env payload_not_json initial_state))
      = []
   /\ errors_logged
        (snd (process_message sample_env payload_not_json initial_state))
      = 1%nat
   /\ plt_calls
        (snd (process_message sample_env payload_not_json initial_state))
      = [])
  /\ errors_logged
       (snd (process_message sample_env payload_array initial_state))
     = 1%nat.
Proof.
  split.
  - apply (C3_undecodable_payload_skipped sample_env payload_not_json
             initial_state).
    left. reflexivity.
  - apply (C3_undecodable_payload_skipped sample_env payload_array
             initial_state).
    right. exists (PyList [PyInt 1; PyInt 2]). split; reflexivity.
Defined.

(* ================================================================= *)
(** ** A message that is recorded and drawn *)

Lemma add_plt_calls_app l1 l2 st :
  add_plt_calls l2 (add_plt_calls l1 st) = add_plt_calls (l1 ++ l2) st.
Proof.
  unfold add_plt_calls. simpl. rewrite app_assoc. reflexivity.
Qed.

Lemma plt_ok E c st :
  matplotlib E c = None -> plt E c st = (Return tt, add_plt_calls [c] st).
Proof. intros H. unfold plt. rewrite H. reflexivity. Qed.

Lemma bind_plt_ok {B} E c (k : unit -> M B) st :
  matplotlib E c = None ->
  bind (plt E c) k st = k tt (add_plt_calls [c] st).
Proof. intros H. unfold bind. rewrite (plt_ok E c st H). reflexivity. Qed.

Lemma bind_get {B} (k : state -> M B) st : bind get k st = k st st.
Proof. reflexivity. Qed.

Lemma bind_lift_Return {A B} (a : A) (k : A -> M B) st :
  bind (lift (Return a)) k st = k a st.
Proof. reflexivity. Qed.

Lemma update_chart_ok E st :
  (forall c, matplotlib E c = None) ->
  update_chart E st
  = (Return tt, add_plt_calls (count_chart_calls (author_counts st)) st).
Proof.
  intros H. unfold update_chart.
  rewrite bind_plt_ok by apply H. rewrite bind_get. cbv beta zeta.
  repeat (rewrite bind_plt_ok by apply H).
  rewrite plt_ok by apply H.
  rewrite !add_plt_calls_app. reflexivity.
Qed.

Lemma update_sentiment_chart_ok E st :
  (forall c, matplotlib E c = None) ->
  scored (author_sentiments st) ->
  update_sentiment_chart E st
  = (Return tt,
     add_plt_calls (sentiment_chart_calls (author_sentiments st)) st).
Proof.
  intros H Hs. unfold update_sentiment_chart.
  rewrite bind_plt_ok by apply H. rewrite bind_get. cbv beta zeta.
  change (author_sentiments (add_plt_calls _ st))
    with (author_sentiments st).
  rewrite (avg_comprehension_scored Hs), bind_lift_Return.
  repeat (rewrite bind_plt_ok by apply H).
  rewrite plt_ok by apply H.
  rewrite !add_plt_calls_app. reflexivity.
Qed.

Lemma process_message_ok E m st d score :
  json_loads E m = Return (PyDict d) ->
  TextBlob_polarity E (dict_get d "message" (PyStr "")) = Return score ->
  hashable (dict_get d "author" (PyStr "unknown")) = true ->
  (forall c, matplotlib E c = None) ->
  scored (author_sentiments st) ->
  process_message E m st
  = (Return tt,
     recorded_state m d (dict_get d "author" (PyStr "unknown")) score st).
Proof.
  intros Hl Hp Hh Hm Hs.
  unfold process_message, try_except, process_message_try,
    analyze_sentiment.
  unfold bind at 1. simpl. unfold bind at 1. unfold lift at 1.
  rewrite Hl. unfold bind at 1. simpl.
  unfold bind at 1. unfold lift at 1. rewrite Hp.
  unfold bind at 1. simpl.
  unfold append_sentiment, increment_count. rewrite Hh.
  unfold bind at 1. simpl.
  unfold bind at 1. simpl.
  unfold bind at 1. simpl.
  unfold bind at 1. simpl.
  unfold bind at 1. rewrite (update_chart_ok _ _ Hm).
  unfold bind at 1. rewrite (update_sentiment_chart_ok _ _ Hm).
  - unfold recorded_state, add_plt_calls. simpl.
    rewrite <- !app_assoc. reflexivity.
  - simpl. apply scored_update. exact Hs.
Qed.

Lemma scored_recorded m d a s st :
  scored (author_sentiments st) ->
  scored (author_sentiments (recorded_state m d a s st)).
Proof.
  intros H. unfold recorded_state. cbn [author_sentiments record snd tables].
  apply scored_update. exact H.
Qed.


(* ================================================================= *)
(** ** C4: the defaults for missing fields *)

Lemma key_eqb_refl k : hashable k = true -> key_eqb k k = true.
Proof.
  unfold hashable, key_eqb. destruct (py_hash k) as [c |]; [ | discriminate ].
  intros _. destruct (key_class_eq_dec c c); congruence.
Qed.

Lemma lookup_update_same {V} (dflt : V) (f : V -> V) k (t : table V) :
  hashable k = true ->
  lookup k (defaultdict_update dflt f k t) = Some (f (value_at dflt k t)).
Proof.
  intros Hk. unfold value_at.
  induction t as [| [k' v] t IH]; simpl.
  - rewrite (key_eqb_refl k Hk). reflexivity.
  - destruct (key_eqb k' k) eqn:Hkk; simpl; rewrite Hkk.
    + reflexivity.
    + exact IH.
Qed.

Lemma dict_get_missing d key default :
  dict_has d key = false -> dict_get d key default = default.
Proof.
  induction d as [| [k v] d IH]; simpl.
  - reflexivity.
  - destruct (String.eqb k key); [ discriminate | exact IH ].
Qed.

Lemma process_message_records E m st d score :
  json_loads E m = Return (PyDict d) ->
  TextBlob_polarity E (dict_get d "message" (PyStr "")) = Return score ->
  hashable (dict_get d "author" (PyStr "unknown")) = true ->
  tables (snd (process_message E m st))
  = record (dict_get d "author" (PyStr "unknown")) score (tables st).
Proof.
  intros Hl Hp Hh. rewrite process_message_tables.
  unfold contribution. rewrite Hl, Hp, Hh. reflexivity.
Qed.

(** C4. A payload that decodes to an object with no ["author"] field, and
    whose text the scorer scores, adds one to the count of ["unknown"] and
    appends the score to the scores of ["unknown"].  A payload with no
    ["message"] field has the empty string scored in its place and is
    recorded under its author; when the charts are drawn too,
    [process_message] returns without an error-level log record. *)
Theorem C4_missing_fields_default :
  (forall E m st d score,
      json_loads E m = Return (PyDict d) ->
      dict_has d "author" = false ->
      TextBlob_polarity E (dict_get d "message" (PyStr "")) = Return score ->
      lookup (PyStr "unknown") (author_counts (snd (process_message E m st)))
      = Some (value_at 0 (PyStr "unknown") (author_counts st) + 1)
      /\ lookup (PyStr "unknown")
           (author_sentiments (snd (process_message E m st)))
         = Some (value_at [] (PyStr "unknown") (author_sentiments st)
                 ++ [score]))
  /\ (forall E m st d score,
         json_loads E m = Return (PyDict d) ->
         dict_has d "message" = false ->
         TextBlob_polarity E (PyStr "") = Return score ->
         hashable (dict_get d "author" (PyStr "unknown")) = true ->
         tables (snd (process_message E m st))
         = record (dict_get d "author" (PyStr "unknown")) score (tables st)
         /\ ((forall c, matplotlib E c = None) ->
             scored (author_sentiments st) ->
             fst (process_message E m st) = Return tt
             /\ errors_logged (snd (process_message E m st))
                = errors_logged st)).
Proof.
  split.
  - intros E m st d score Hl Ha Hp.
    assert (Hau : dict_get d "author" (PyStr "unknown") = PyStr "unknown")
      by (apply dict_get_missing; exact Ha).
    assert (Hh : hashable (dict_get d "author" (PyStr "unknown")) = true)
      by (rewrite Hau; reflexivity).
    pose proof (process_message_records E m st Hl Hp Hh) as Ht.
    rewrite Hau in Ht. unfold tables, record in Ht. simpl in Ht.
    injection Ht as Hc Hs. rewrite Hc, Hs.
    split.
    + apply (lookup_update_same 0 (fun n => n + 1)). reflexivity.
    + apply (lookup_update_same [] (fun scores => scores ++ [score])).
      reflexivity.
  - intros E m st d score Hl Hm Hp Hh.
    assert (Hp' : TextBlob_polarity E (dict_get d "message" (PyStr ""))
                  = Return score)
      by (rewrite (dict_get_missing d "message" (PyStr "") Hm); exact Hp).
    split.
    + apply (process_message_records E m st Hl Hp' Hh).
    + intros Hplt Hs.
      rewrite (process_message_ok E m st Hl Hp' Hh Hplt Hs).
      split; [ reflexivity | ].
      eapply eq_trans; [ apply errors_logged_app; reflexivity | ].
      simpl. lia.
Qed.

Lemma C4_witness :
  (lookup (PyStr "unknown")
     (author_counts
        (snd (process_message sample_env payload_no_author initial_state)))
   = Some 1
   /\ lookup (PyStr "unknown")
        (author_sentiments
           (snd (process_message sample_env payload_no_author
                   initial_state)))
      = Some [0.8%float])
  /\ tables (snd (process_message sample_env payload_no_message
                    initial_state))
     = ([(PyStr "a", 1)], [(PyStr "a", [0%float])])
  /\ errors_logged
       (snd (process_message sample_env payload_no_message initial_state))
     = 0%nat.
Proof.
  split; [ | split ].
  - apply (proj1 C4_missing_fields_default sample_env payload_no_author
             initial_state [("message", PyStr "great")] 0.8%float);
      reflexivity.
  - apply (proj2 C4_missing_fields_default sample_env payload_no_message
             initial_state [("author", PyStr "a")] 0%float);
      reflexivity.
  - apply (proj2 C4_missing_fields_default sample_env payload_no_message
             initial_state [("author", PyStr "a")] 0%float);
      try reflexivity.
    constructor.
Defined.

(* ================================================================= *)
(** ** C2: the sum of the counts *)

(** When the loop runs to the end of the stream, the tables hold what the
    payloads contributed, in order. *)
Lemma for_message_in_returns E consumer :
  forall st,
    fst (for_message_in E consumer st) = Return tt ->
    tables (snd (for_message_in E consumer st))
    = record_all (contributions E (payloads consumer)) (tables st).
Proof.
  induction consumer as [| [r | e] rest IH]; intros st.
  - reflexivity.
  - rewrite for_message_in_Yield.
    set (st0 := snd (logger DEBUG _ st)).
    pose proof (process_message_tables E (value r) st0) as Ht.
    destruct (process_message E (value r) st0) as [[[] | e] st'];
      simpl in Ht; [ | discriminate ].
    intros Hr. rewrite (IH st' Hr), Ht.
    change (tables st0) with (tables st). simpl.
    destruct (contribution E (value r)) as [[a s] |]; reflexivity.
  - discriminate.
Qed.

Lemma sum_counts_update a (t : table Z) :
  sum_counts (defaultdict_update 0 (fun n => n + 1) a t) = sum_counts t + 1.
Proof.
  unfold sum_counts, values.
  induction t as [| [k n] t IH]; simpl.
  - reflexivity.
  - destruct (key_eqb k a); simpl; lia.
Qed.

Lemma sum_counts_record_all cs t :
  sum_counts (fst (record_all cs t)) = sum_counts (fst t) + len cs.
Proof.
  unfold record_all, len. revert t.
  induction cs as [| [a s] cs IH]; intros t; simpl List.length.
  - simpl. lia.
  - simpl fold_left. rewrite IH. simpl fst.
    rewrite sum_counts_update. lia.
Qed.

Lemma contributions_all E (messages : list string) :
  Forall (fun m => contribution E m <> None) messages ->
  len (contributions E messages) = len messages.
Proof.
  unfold len. induction 1 as [| m ms Hm _ IH]; cbn [contributions].
  - reflexivity.
  - destruct (contribution E m); [ | congruence ].
    cbn [List.length]. rewrite !Nat2Z.inj_succ, IH. reflexivity.
Qed.

Lemma lookup_update_other {V} (dflt : V) (f : V -> V) a k (t : table V) v :
  lookup k t = Some v ->
  lookup k (defaultdict_update dflt f a t) = Some v
  \/ lookup k (defaultdict_update dflt f a t) = Some (f v).
Proof.
  induction t as [| [k' v'] t IH]; simpl.
  - discriminate.
  - destruct (key_eqb k' a) eqn:Ha; simpl.
    + destruct (key_eqb k' k).
      * intros [= ->]. right. reflexivity.
      * intros H. left. exact H.
    + destruct (key_eqb k' k).
      * intros H. left. exact H.
      * exact IH.
Qed.

(** C2, as the code has it.  One message adds one to the sum of the counts
    when it contributes (it decodes to an object, its text is scored and
    its author can be a key) and leaves the count table as it was
    otherwise; a count is never lowered and no key is removed; so when the
    loop has run through the whole stream from the empty tables, the sum
    of the counts is the number of payloads that contributed, which is
    the number N of payloads when each of them contributes. *)
Theorem C2_sum_of_counts :
  (forall E m st,
      sum_counts (author_counts (snd (process_message E m st)))
      = sum_counts (author_counts st)
        + match contribution E m with Some _ => 1 | None => 0 end)
  /\ (forall E m st,
         contribution E m = None ->
         author_counts (snd (process_message E m st)) = author_counts st)
  /\ (forall E m st k n,
         lookup k (author_counts st) = Some n ->
         lookup k (author_counts (snd (process_message E m st))) = Some n
         \/ lookup k (author_counts (snd (process_message E m st)))
            = Some (n + 1))
  /\ (forall E consumer,
         fst (for_message_in E consumer initial_state) = Return tt ->
         sum_counts
           (author_counts (snd (for_message_in E consumer initial_state)))
         = len (contributions E (payloads consumer)))
  /\ (forall E consumer,
         fst (for_message_in E consumer initial_state) = Return tt ->
         Forall (fun m => contribution E m <> None) (payloads consumer) ->
         sum_counts
           (author_counts (snd (for_message_in E consumer initial_state)))
         = len (payloads consumer)).
Proof.
  assert (Hstep : forall E m st,
             author_counts (snd (process_message E m st))
             = fst (record_contribution (contribution E m) (tables st))).
  { intros E m st. rewrite <- process_message_tables. reflexivity. }
  repeat split.
  - intros E m st. rewrite Hstep.
    destruct (contribution E m) as [[a s] |]; simpl.
    + apply sum_counts_update.
    + lia.
  - intros E m st Hc. rewrite Hstep, Hc. reflexivity.
  - intros E m st k n Hk. rewrite Hstep.
    destruct (contribution E m) as [[a s] |]; simpl.
    + apply (lookup_update_other 0 (fun n => n + 1)). exact Hk.
    + left. exact Hk.
  - intros E consumer Hr.
    change (author_counts ?s) with (fst (tables s)).
    rewrite (for_message_in_returns E consumer initial_state Hr).
    rewrite sum_counts_record_all. reflexivity.
  - intros E consumer Hr Hall.
    change (author_counts ?s) with (fst (tables s)).
    rewrite (for_message_in_returns E consumer initial_state Hr).
    rewrite sum_counts_record_all, (@contributions_all E _ Hall).
    reflexivity.
Qed.

Lemma C2_witness :
  sum_counts
    (author_counts (snd (for_message_in sample_env sample_consumer
                           initial_state)))
  = 3.
Proof.
  apply (proj2 (proj2 (proj2 (proj2 C2_sum_of_counts)))
           sample_env sample_consumer).
  - reflexivity.
  - repeat constructor; discriminate.
Defined.

(** C2 as stated fails: a payload that decodes to an object whose author
    is a list is a decodable, dict-shaped event, yet [author_sentiments]
    raises [TypeError] on the unhashable key, the event is dropped with an
    error record, and the sum of the counts after this one event is 0. *)
Lemma C2_counterexample :
  json_loads sample_env payload_list_author
  = Return (PyDict [("author", PyList []); ("message", PyStr "hi")])
  /\ fst (for_message_in sample_env
            [Yield {| value := payload_list_author; offset := 0 |}]
            initial_state)
     = Return tt
  /\ sum_counts
       (author_counts
          (snd (for_message_in sample_env
                  [Yield {| value := payload_list_author; offset := 0 |}]
                  initial_state)))
     <> 1.
Proof.
  split; [ reflexivity | split; [ reflexivity | ] ].
  vm_compute. discriminate.
Qed.

(* ================================================================= *)
(** ** C5: the average that is drawn *)






(* ================================================================= *)
(** ** C6: an exception while one message is processed *)

Lemma process_message_except_Exception m e :
  is_Exception e = true ->
  process_message_except m e = Some (logger ERROR (except_msg m e)).
Proof. destruct e; simpl; intros H; try reflexivity; discriminate. Qed.

Lemma process_message_caught E m st e st1 :
  process_message_try E m st = (Raise e, st1) ->
  is_Exception e = true ->
  process_message E m st
  = (Return tt, snd (logger ERROR (except_msg m e) st1)).
Proof.
  intros Hb He. unfold process_message, try_except.
  rewrite Hb, (process_message_except_Exception m e He). reflexivity.
Qed.

Lemma process_message_try_scorer_raises E m st d e :
  json_loads E m = Return (PyDict d) ->
  TextBlob_polarity E (dict_get d "message" (PyStr "")) = Raise e ->
  process_message_try E m st
  = (Raise e,
     {| author_counts := author_counts st;
        author_sentiments := author_sentiments st;
        logged :=
          logged st
          ++ [ {| lvl := DEBUG; msg := Raw_message m |};
               {| lvl := INFO; msg := Processed_JSON_message (PyDict d) |} ];
        plt_calls := plt_calls st;
        consumer_closed := consumer_closed st |}).
Proof.
  intros Hl Hp. unfold process_message_try, analyze_sentiment.
  unfold bind at 1. simpl. unfold bind at 1. unfold lift at 1.
  rewrite Hl. unfold bind at 1. simpl.
  unfold bind at 1. unfold lift at 1. rewrite Hp.
  rewrite <- app_assoc. reflexivity.
Qed.

Lemma process_message_try_updated E m st d score :
  json_loads E m = Return (PyDict d) ->
  TextBlob_polarity E (dict_get d "message" (PyStr "")) = Return score ->
  hashable (dict_get d "author" (PyStr "unknown")) = true ->
  process_message_try E m st
  = render E m
      (updated_state m d (dict_get d "author" (PyStr "unknown")) score st).
Proof.
  intros Hl Hp Hh. unfold process_message_try, analyze_sentiment.
  unfold bind at 1. simpl. unfold bind at 1. unfold lift at 1.
  rewrite Hl. unfold bind at 1. simpl.
  unfold bind at 1. unfold lift at 1. rewrite Hp.
  unfold bind at 1. simpl.
  unfold append_sentiment, increment_count. rewrite Hh.
  unfold bind at 1. simpl.
  unfold bind at 1. simpl.
  unfold bind at 1. simpl.
  unfold bind at 1. simpl.
  unfold updated_state, render. simpl. rewrite <- !app_assoc. reflexivity.
Qed.

Lemma render_raises_logged E m st e :
  fst (render E m st) = Raise e -> logged (snd (render E m st)) = logged st.
Proof.
  unfold render. unfold bind at 1 3.
  pose proof (keeps_update_chart_logged E st) as H1.
  destruct (update_chart E st) as [[[] | e1] st1]; simpl in *;
    [ | intros _; exact H1 ].
  unfold bind at 1 2.
  pose proof (keeps_update_sentiment_chart_logged E st1) as H2.
  destruct (update_sentiment_chart E st1) as [[[] | e2] st2]; simpl in *.
  - discriminate.
  - intros _. congruence.
Qed.

(** C6. An exception of class [Exception] raised inside the [try] suite is
    caught: [process_message] returns, having logged one error record on
    top of the state the suite had reached, which is not rolled back.  If
    the scorer raises, that state has the tables as they were and no
    chart was touched.  When scoring and the update of the tables succeed,
    what is left of the suite is the drawing of the charts on the updated
    tables; if an exception is raised there, the tables keep the event's
    count and score. *)
Theorem C6_exception_recovered_without_rollback :
  (forall E m st e st1,
      process_message_try E m st = (Raise e, st1) ->
      is_Exception e = true ->
      process_message E m st
      = (Return tt, snd (logger ERROR (except_msg m e) st1)))
  /\ (forall E m st d e,
         json_loads E m = Return (PyDict d) ->
         TextBlob_polarity E (dict_get d "message" (PyStr "")) = Raise e ->
         is_Exception e = true ->
         fst (process_message E m st) = Return tt
         /\ tables (snd (process_message E m st)) = tables st
         /\ plt_calls (snd (process_message E m st)) = plt_calls st
         /\ errors_logged (snd (process_message E m st))
            = S (errors_logged st))
  /\ (forall E m st d score,
         json_loads E m = Return (PyDict d) ->
         TextBlob_polarity E (dict_get d "message" (PyStr ""))
         = Return score ->
         hashable (dict_get d "author" (PyStr "unknown")) = true ->
         process_message_try E m st
         = render E m
             (updated_state m d (dict_get d "author" (PyStr "unknown"))
                score st))
  /\ (forall E m st d score e,
         json_loads E m = Return (PyDict d) ->
         TextBlob_polarity E (dict_get d "message" (PyStr ""))
         = Return score ->
         hashable (dict_get d "author" (PyStr "unknown")) = true ->
         fst (render E m
                (updated_state m d (dict_get d "author" (PyStr "unknown"))
                   score st))
         = Raise e ->
         is_Exception e = true ->
         fst (process_message E m st) = Return tt
         /\ tables (snd (process_message E m st))
            = record (dict_get d "author" (PyStr "unknown")) score
                (tables st)
         /\ errors_logged (snd (process_message E m st))
            = S (errors_logged st)).
Proof.
  split; [ | split; [ | split ] ].
  - intros E m st e st1. apply process_message_caught.
  - intros E m st d e Hl Hp He.
    rewrite (process_message_caught E m st
               (process_message_try_scorer_raises E m st Hl Hp) He).
    simpl. repeat split.
    rewrite (@errors_logged_app st _
               [ {| lvl := DEBUG; msg := Raw_message m |};
                 {| lvl := INFO; msg := Processed_JSON_message (PyDict d) |};
                 {| lvl := ERROR; msg := except_msg m e |} ]).
    + simpl. lia.
    + simpl. rewrite <- !app_assoc. reflexivity.
  - intros E m st d score. apply process_message_try_updated.
  - intros E m st d score e Hl Hp Hh Hr He.
    pose proof (process_message_try_updated E m st Hl Hp Hh) as Ht.
    pose proof (render_raises_logged E m _ Hr) as Hlog.
    split; [ | split ].
    + destruct (render E m _) as [o st1] eqn:Hrender in Ht, Hr.
      simpl in Hr. subst o.
      rewrite (process_message_caught E m st Ht He). reflexivity.
    + apply (process_message_records E m st Hl Hp Hh).
    + destruct (render E m _) as [o st1] eqn:Hrender in Ht, Hr, Hlog.
      simpl in Hr, Hlog. subst o.
      rewrite (process_message_caught E m st Ht He). simpl.
      rewrite (@errors_logged_app st _
                 [ {| lvl := DEBUG; msg := Raw_message m |};
                   {| lvl := INFO;
                      msg := Processed_JSON_message (PyDict d) |};
                   {| lvl := INFO;
                      msg := Sentiment_score_for_message score |};
                   {| lvl := INFO;
                      msg := Updated_author_counts
                               (fst (record
                                       (dict_get d "author" (PyStr "unknown"))
                                       score (tables st))) |};
                   {| lvl := ERROR; msg := except_msg m e |} ]).
      * simpl. lia.
      * simpl. rewrite Hlog. simpl. rewrite <- !app_assoc. reflexivity.
Qed.

Lemma C6_witness :
  process_message sample_env payload_number_message initial_state
  = (Return tt,
     snd (logger ERROR (Error_processing_message TypeError)
            (snd (process_message_try sample_env payload_number_message
                    initial_state))))
  /\ (fst (process_message sample_env payload_number_message initial_state)
      = Return tt
      /\ tables (snd (process_message sample_env payload_number_message
                        initial_state))
         = ([], [])
      /\ plt_calls (snd (process_message sample_env payload_number_message
                           initial_state))
         = []
      /\ errors_logged (snd (process_message sample_env
                               payload_number_message initial_state))
         = 1%nat)
  /\ (fst (process_message broken_plot_env payload_a_great initial_state)
      = Return tt
      /\ tables (snd (process_message broken_plot_env payload_a_great
                        initial_state))
         = ([(PyStr "a", 1)], [(PyStr "a", [0.8%float])])
      /\ errors_logged (snd (process_message broken_plot_env payload_a_great
                               initial_state))
         = 1%nat).
Proof.
  split; [ | split ].
  - apply (proj1 C6_exception_recovered_without_rollback sample_env
             payload_number_message initial_state TypeError);
      reflexivity.
  - apply (proj1 (proj2 C6_exception_recovered_without_rollback) sample_env
             payload_number_message initial_state
             [("author", PyStr "a"); ("message", PyInt 5)] TypeError);
      reflexivity.
  - apply (proj2 (proj2 (proj2 C6_exception_recovered_without_rollback))
             broken_plot_env payload_a_great initial_state
             [("author", PyStr "a"); ("message", PyStr "great")]
             0.8%float OtherError);
      reflexivity.
Defined.

(* ================================================================= *)
(** ** C7: what stops the loop, and the consumer is closed *)

Lemma raises_only_bind {A B} P (m : M A) (k : A -> M B) :
  raises_only P m -> (forall a, raises_only P (k a)) ->
  raises_only P (bind m k).
Proof.
  intros Hm Hk st e. unfold bind. specialize (Hm st).
  destruct (m st) as [[a | e'] st']; simpl in *.
  - apply Hk.
  - intros [= ->]. apply Hm. reflexivity.
Qed.

Lemma raises_only_ret {A} P (a : A) : raises_only P (ret a).
Proof. intros st e. discriminate. Qed.

Lemma raises_only_get P : raises_only P get.
Proof. intros st e. discriminate. Qed.

Lemma raises_only_logger P l m : raises_only P (logger l m).
Proof. intros st e. discriminate. Qed.

Lemma raises_only_raise {A} (P : exn -> Prop) e :
  P e -> raises_only P (@raise A e).
Proof. intros H st e'. simpl. intros [= <-]. exact H. Qed.

Lemma raises_only_lift {A} (P : exn -> Prop) (o : outcome A) :
  (forall e, o = Raise e -> P e) -> raises_only P (lift o).
Proof. intros H st e. simpl. apply H. Qed.

Lemma raises_only_plt E (P : exn -> Prop) c :
  (forall c e, matplotlib E c = Some e -> P e) -> raises_only P (plt E c).
Proof.
  intros H st e. unfold plt.
  destruct (matplotlib E c) as [e' |] eqn:Hc; simpl.
  - intros [= <-]. apply (H c). exact Hc.
  - discriminate.
Qed.

Lemma avg_comprehension_raises vals e :
  avg_comprehension vals = Raise e -> e = ZeroDivisionError.
Proof.
  induction vals as [| scores vals IH]; simpl.
  - discriminate.
  - unfold truediv. destruct (len scores =? 0).
    + intros [= <-]. reflexivity.
    + destruct (avg_comprehension vals); [ discriminate | ].
      intros [= <-]. apply IH. reflexivity.
Qed.

Lemma process_message_try_raises_Exceptions E m :
  raises_Exceptions_only E ->
  raises_only (fun e => is_Exception e = true) (process_message_try E m).
Proof.
  intros (Hl & Hp & Hm).
  assert (Hplt : forall c,
             raises_only (fun e => is_Exception e = true) (plt E c))
    by (intros c; apply raises_only_plt; exact Hm).
  assert (Huc : raises_only (fun e => is_Exception e = true)
                  (update_chart E)).
  { unfold update_chart.
    repeat (apply raises_only_bind; [ | intros ? ]);
      first [ apply Hplt | apply raises_only_get ]. }
  assert (Husc : raises_only (fun e => is_Exception e = true)
                   (update_sentiment_chart E)).
  { unfold update_sentiment_chart.
    repeat (apply raises_only_bind; [ | intros ? ]);
      first [ apply Hplt | apply raises_only_get | idtac ].
    apply raises_only_lift. intros e He.
    rewrite (avg_comprehension_raises _ He). reflexivity. }
  unfold process_message_try, analyze_sentiment.
  apply raises_only_bind; [ apply raises_only_logger | intros _ ].
  apply raises_only_bind; [ apply raises_only_lift; apply Hl | intros v ].
  apply raises_only_bind; [ apply raises_only_logger | intros _ ].
  destruct v; try apply raises_only_logger.
  apply raises_only_bind; [ apply raises_only_lift; apply Hp | intros s ].
  apply raises_only_bind; [ apply raises_only_logger | intros _ ].
  unfold append_sentiment, increment_count.
  destruct (hashable (dict_get d "author" (PyStr "unknown")));
    repeat (apply raises_only_bind; [ | intros ? ]);
    first [ apply raises_only_get
          | apply raises_only_logger
          | exact Huc
          | exact Husc
          | apply Hplt
          | apply raises_only_raise; reflexivity
          | apply raises_only_lift; intros e0 He0;
            rewrite (avg_comprehension_raises _ He0); reflexivity
          | intros ? ?; discriminate ].
Qed.

Lemma process_message_propagates E m st e :
  fst (process_message E m st) = Raise e -> is_Exception e = false.
Proof.
  unfold process_message, try_except.
  destruct (process_message_try E m st) as [[[] | e'] st']; simpl;
    [ discriminate | ].
  destruct (is_Exception e') eqn:He.
  - rewrite (process_message_except_Exception m e' He). discriminate.
  - destruct e'; try discriminate He; simpl; intros [= <-]; reflexivity.
Qed.

Lemma process_message_returns E m st :
  raises_Exceptions_only E -> fst (process_message E m st) = Return tt.
Proof.
  intros HE. unfold process_message, try_except.
  pose proof (process_message_try_raises_Exceptions m HE st) as Hb.
  destruct (process_message_try E m st) as [[[] | e] st']; simpl in *;
    [ reflexivity | ].
  rewrite (process_message_except_Exception m e (Hb e eq_refl)).
  reflexivity.
Qed.

Lemma for_message_in_stops E consumer :
  forall st e,
    fst (for_message_in E consumer st) = Raise e ->
    is_Exception e = false \/ In (Raises e) consumer.
Proof.
  induction consumer as [| [r | e'] rest IH]; intros st e; simpl.
  - discriminate.
  - unfold bind at 1. simpl. unfold bind at 1.
    match goal with
    | |- context [process_message E ?m ?s] =>
        pose proof (process_message_propagates E m s) as Hp;
        destruct (process_message E m s) as [[[] | e1] st1]
    end; simpl in *.
    + intros H. destruct (IH _ _ H); auto.
    + intros [= <-]. left. apply Hp. reflexivity.
  - intros [= <-]. right. left. reflexivity.
Qed.

Lemma for_message_in_end_of_stream E records :
  raises_Exceptions_only E ->
  forall st, fst (for_message_in E (map Yield records) st) = Return tt.
Proof.
  intros HE. induction records as [| r records IH]; intros st; simpl.
  - reflexivity.
  - unfold bind at 1. simpl. unfold bind at 1.
    match goal with
    | |- context [process_message E ?m ?s] =>
        pose proof (process_message_returns m s HE) as Hp;
        destruct (process_message E m s) as [[[] | e1] st1]
    end; simpl in *.
    + apply IH.
    + discriminate.
Qed.

Lemma keeps_for_message_in_closed E consumer :
  keeps consumer_closed (for_message_in E consumer).
Proof.
  induction consumer as [| [r | e] rest IH]; simpl.
  - apply keeps_ret.
  - apply keeps_bind; [ apply keeps_logger_closed | intros _ ].
    apply keeps_bind; [ apply keeps_process_message_closed | intros _ ].
    exact IH.
  - apply keeps_raise.
Qed.

Lemma main_poll_closes E topic consumer st :
  consumer_closed (snd (main_poll E topic consumer st))
  = S (consumer_closed st).
Proof.
  unfold main_poll, try_finally.
  assert (Hk : keeps consumer_closed
                 (try_except (for_message_in E consumer) (main_except))).
  { apply keeps_try_except.
    - apply keeps_for_message_in_closed.
    - intros e h He. unfold main_except in He.
      destruct e; simpl in He; inversion He; apply keeps_logger_closed. }
  specialize (Hk st).
  destruct (try_except (for_message_in E consumer) main_except st)
    as [r st1].
  simpl in *. rewrite Hk. reflexivity.
Qed.

Lemma main_poll_outcome E topic consumer st :
  fst (main_poll E topic consumer st)
  = match fst (for_message_in E consumer st) with
    | Raise SystemExit => Raise SystemExit
    | _ => Return tt
    end.
Proof.
  unfold main_poll, try_finally, try_except.
  destruct (for_message_in E consumer st) as [[[] | e] st1]; simpl;
    [ reflexivity | ].
  destruct e; reflexivity.
Qed.

Lemma sample_loads_in_raises docs m e :
  sample_loads_in docs m = Raise e -> e = JSONDecodeError.
Proof.
  induction docs as [| [text v] docs IH]; simpl.
  - intros [= <-]. reflexivity.
  - destruct (String.eqb text m); [ discriminate | exact IH ].
Qed.

Lemma sample_env_raises_Exceptions_only : raises_Exceptions_only sample_env.
Proof.
  repeat split; simpl.
  - intros m e H. rewrite (sample_loads_in_raises _ _ H). reflexivity.
  - intros v e. destruct v; simpl; try (intros [= <-]; reflexivity).
    destruct (String.eqb s "great"); [ discriminate | ].
    destruct (String.eqb s "bad"); discriminate.
  - discriminate.
Qed.

(** C7. [process_message] never lets an [Exception] out: what it raises,
    if anything, is not an [Exception] (a [KeyboardInterrupt], say), and
    when the libraries raise nothing else it returns for every payload.
    So the loop of [main] stops before the end of the stream only when the
    consumer itself raises or on such an interrupt, and runs to the end of
    the stream otherwise.  On every way out of the [try] of [main] the
    consumer is closed, once; the end of the stream, a
    [KeyboardInterrupt] and an [Exception] of the consumer all leave it
    normally. *)
Theorem C7_loop_survives_and_consumer_closed :
  (forall E m st e,
      fst (process_message E m st) = Raise e -> is_Exception e = false)
  /\ (forall E m st,
         raises_Exceptions_only E ->
         fst (process_message E m st) = Return tt)
  /\ (forall E consumer st e,
         fst (for_message_in E consumer st) = Raise e ->
         is_Exception e = false \/ In (Raises e) consumer)
  /\ (forall E records st,
         raises_Exceptions_only E ->
         fst (for_message_in E (map Yield records) st) = Return tt)
  /\ (forall E topic consumer st,
         consumer_closed (snd (main_poll E topic consumer st))
         = S (consumer_closed st))
  /\ (forall E topic consumer st,
         fst (main_poll E topic consumer st)
         = match fst (for_message_in E consumer st) with
           | Raise SystemExit => Raise SystemExit
           | _ => Return tt
           end).
Proof.
  split; [ | split; [ | split; [ | split; [ | split ] ] ] ].
  - apply process_message_propagates.
  - intros E m st HE. apply process_message_returns. exact HE.
  - intros E consumer. apply for_message_in_stops.
  - intros E records st HE. apply for_message_in_end_of_stream. exact HE.
  - apply main_poll_closes.
  - apply main_poll_outcome.
Qed.

Lemma C7_witness :
  is_Exception KeyboardInterrupt = false
  /\ fst (process_message sample_env payload_not_json initial_state)
     = Return tt
  /\ (is_Exception OtherError = false
      \/ In (Raises OtherError)
           [Yield {| value := payload_list_author; offset := 0 |};
            Raises OtherError])
  /\ fst (for_message_in sample_env
            (map Yield [ {| value := payload_not_json; offset := 0 |};
                         {| value := payload_number_message; offset := 1 |};
                         {| value := payload_a_great; offset := 2 |} ])
            initial_state)
     = Return tt
  /\ consumer_closed
       (snd (main_poll interrupted_env "buzzline" sample_consumer
               initial_state))
     = 1%nat.
Proof.
  split; [ | split; [ | split; [ | split ] ] ].
  - apply (proj1 C7_loop_survives_and_consumer_closed interrupted_env
             payload_a_great initial_state KeyboardInterrupt).
    reflexivity.
  - apply (proj1 (proj2 C7_loop_survives_and_consumer_closed)).
    exact sample_env_raises_Exceptions_only.
  - apply (proj1 (proj2 (proj2 C7_loop_survives_and_consumer_closed))
             sample_env _ initial_state).
    reflexivity.
  - apply (proj1 (proj2 (proj2 (proj2
             C7_loop_survives_and_consumer_closed)))).
    exact sample_env_raises_Exceptions_only.
  - apply (proj1 (proj2 (proj2 (proj2 (proj2
             C7_loop_survives_and_consumer_closed))))).
Defined.

(* ================================================================= *)
(** ** C8: the order of the bars *)

Lemma keys_update {V} (dflt : V) (f : V -> V) a (t : table V) :
  keys (defaultdict_update dflt f a t) = add_key (keys t) a.
Proof.
  unfold add_key, keys.
  induction t as [| [k v] t IH]; simpl.
  - reflexivity.
  - destruct (key_eqb k a); simpl.
    + reflexivity.
    + rewrite IH. destruct (existsb _ (map fst t)); reflexivity.
Qed.

Lemma keys_counted (t : table (list float)) : keys (counted t) = keys t.
Proof. unfold keys, counted. rewrite map_map. reflexivity. Qed.

Lemma keys_record_all cs t :
  keys (fst (record_all cs t)) = fold_left add_key (map fst cs) (keys (fst t)).
Proof.
  unfold record_all. revert t.
  induction cs as [| [a s] cs IH]; intros t; simpl.
  - reflexivity.
  - rewrite IH. simpl. rewrite keys_update. reflexivity.
Qed.

Lemma contribution_inv E m a s :
  contribution E m = Some (a, s) ->
  exists d,
    json_loads E m = Return (PyDict d)
    /\ TextBlob_polarity E (dict_get d "message" (PyStr "")) = Return s
    /\ a = dict_get d "author" (PyStr "unknown")
    /\ hashable a = true.
Proof.
  unfold contribution.
  destruct (json_loads E m) as [v | e]; [ | discriminate ].
  destruct v; try discriminate.
  destruct (TextBlob_polarity E _) as [score | e] eqn:Hp; [ | discriminate ].
  destruct (hashable (dict_get d "author" (PyStr "unknown"))) eqn:Hh;
    [ | discriminate ].
  intros [= <- <-]. exists d. repeat split; auto.
Qed.

Lemma keeps_process_message_except_plt m e h :
  process_message_except m e = Some h -> keeps plt_calls h.
Proof.
  intros H. destruct (process_message_except_logs _ _ H) as [msg ->].
  auto with frame.
Qed.

(** A payload that contributes nothing draws nothing. *)
Lemma process_message_skipped_plt E m st :
  contribution E m = None ->
  plt_calls (snd (process_message E m st)) = plt_calls st.
Proof.
  unfold process_message.
  rewrite try_except_keeps_snd by apply keeps_process_message_except_plt.
  unfold process_message_try, contribution, analyze_sentiment.
  unfold bind at 1. simpl.
  unfold bind at 1. unfold lift at 1.
  destruct (json_loads E m) as [v | e]; [ | reflexivity ].
  unfold bind at 1. simpl.
  destruct v; try reflexivity.
  unfold bind at 1. unfold lift at 1.
  destruct (TextBlob_polarity E (dict_get d "message" (PyStr "")))
    as [score | e]; [ | reflexivity ].
  unfold bind at 1. simpl.
  unfold bind at 1. unfold append_sentiment.
  destruct (hashable (dict_get d "author" (PyStr "unknown")));
    [ discriminate | reflexivity ].
Qed.

Lemma bars_drawn_app l1 l2 :
  bars_drawn (l1 ++ l2) = bars_drawn l1 ++ bars_drawn l2.
Proof. unfold bars_drawn. apply flat_map_app. Qed.

Lemma keys_recorded m d a s st :
  keys (author_counts (recorded_state m d a s st))
  = add_key (keys (author_counts st)) a.
Proof.
  unfold recorded_state. cbn [author_counts record fst tables].
  apply keys_update.
Qed.

Lemma bars_drawn_recorded m d a s st :
  in_step (tables st) ->
  bars_drawn (plt_calls (recorded_state m d a s st))
  = bars_drawn (plt_calls st)
    ++ [ (ax_count, add_key (keys (author_counts st)) a);
         (ax_sentiment, add_key (keys (author_counts st)) a) ].
Proof.
  intros Hin.
  assert (Hk : keys (author_sentiments st) = keys (author_counts st)).
  { unfold in_step, tables in Hin. cbn [fst snd] in Hin.
    rewrite Hin, keys_counted. reflexivity. }
  unfold recorded_state.
  cbn [plt_calls author_counts author_sentiments record fst snd tables].
  rewrite !bars_drawn_app.
  change (bars_drawn (count_chart_calls ?c)) with [(ax_count, keys c)].
  change (bars_drawn (sentiment_chart_calls ?t)) with [(ax_sentiment, keys t)].
  rewrite !keys_update, Hk. reflexivity.
Qed.

Lemma in_step_recorded m d a s st :
  in_step (tables st) -> in_step (tables (recorded_state m d a s st)).
Proof. intros H. apply (in_step_record a s H). Qed.

Lemma for_message_in_bars E consumer :
  (forall c, matplotlib E c = None) ->
  forall st,
    in_step (tables st) ->
    scored (author_sentiments st) ->
    fst (for_message_in E consumer st) = Return tt ->
    bars_drawn (plt_calls (snd (for_message_in E consumer st)))
    = bars_drawn (plt_calls st)
      ++ expected_bars (keys (author_counts st))
           (map fst (contributions E (payloads consumer))).
Proof.
  intros Hplt.
  induction consumer as [| [r | e] rest IH]; intros st Hin Hsc.
  - intros _. simpl. rewrite app_nil_r. reflexivity.
  - rewrite for_message_in_Yield.
    set (st0 := snd (logger DEBUG _ st)).
    assert (Hin0 : in_step (tables st0)) by exact Hin.
    assert (Hsc0 : scored (author_sentiments st0)) by exact Hsc.
    change (plt_calls st) with (plt_calls st0).
    change (author_counts st) with (author_counts st0).
    cbn [payloads contributions].
    destruct (contribution E (value r)) as [[a s] |] eqn:Hc.
    + destruct (contribution_inv E (value r) Hc)
        as (d & Hl & Hp & -> & Hh).
      rewrite (process_message_ok E (value r) st0 Hl Hp Hh Hplt Hsc0).
      cbv beta iota. intros Hr.
      rewrite (IH _ (@in_step_recorded _ _ _ _ _ Hin0)
                 (@scored_recorded _ _ _ _ _ Hsc0) Hr).
      rewrite (@bars_drawn_recorded _ _ _ _ _ Hin0), keys_recorded.
      rewrite <- app_assoc. reflexivity.
    + pose proof (process_message_skipped_plt E (value r) st0 Hc) as Hq.
      pose proof (process_message_tables E (value r) st0) as Ht.
      rewrite Hc in Ht. cbn [record_contribution] in Ht.
      destruct (process_message E (value r) st0) as [[[] | e] st1];
        cbn [fst snd] in *; [ | discriminate ].
      assert (Hc1 : author_counts st1 = author_counts st0)
        by exact (f_equal fst Ht).
      assert (Hs1 : author_sentiments st1 = author_sentiments st0)
        by exact (f_equal snd Ht).
      intros Hr. rewrite IH; try assumption.
      * rewrite Hq, Hc1. reflexivity.
      * rewrite Ht. exact Hin0.
      * rewrite Hs1. exact Hsc0.
  - discriminate.
Qed.

(** C8. The keys of [author_counts], which label the count panel, are the
    recorded authors in order of first appearance: one message leaves the
    keys as they were when its author is already a key (only its count
    grows) and adds its author at the end otherwise.  The keys of
    [author_sentiments], which label the sentiment panel, are the same
    list, and when the charts are drawn each recorded message draws the
    two panels with that same list of labels. *)
Theorem C8_first_appearance_order :
  (forall E m st,
      keys (author_counts (snd (process_message E m st)))
      = match contribution E m with
        | Some (a, _) => add_key (keys (author_counts st)) a
        | None => keys (author_counts st)
        end)
  /\ (forall E consumer,
         keys (author_sentiments
                 (snd (for_message_in E consumer initial_state)))
         = keys (author_counts
                   (snd (for_message_in E consumer initial_state))))
  /\ (forall E consumer,
         fst (for_message_in E consumer initial_state) = Return tt ->
         keys (author_counts (snd (for_message_in E consumer initial_state)))
         = first_seen (map fst (contributions E (payloads consumer))))
  /\ (forall E consumer,
         (forall c, matplotlib E c = None) ->
         fst (for_message_in E consumer initial_state) = Return tt ->
         bars_drawn
           (plt_calls (snd (for_message_in E consumer initial_state)))
         = expected_bars []
             (map fst (contributions E (payloads consumer)))).
Proof.
  split; [ | split; [ | split ] ].
  - intros E m st.
    change (author_counts ?s) with (fst (tables s)).
    rewrite process_message_tables.
    destruct (contribution E m) as [[a s] |]; simpl.
    + apply keys_update.
    + reflexivity.
  - intros E consumer.
    assert (H : in_step
                  (tables (snd (for_message_in E consumer initial_state)))).
    { apply (for_message_in_tables_invariant E in_step).
      - intros a s t. apply in_step_record.
      - reflexivity. }
    unfold in_step, tables in H. simpl in H.
    rewrite H, keys_counted. reflexivity.
  - intros E consumer Hr.
    change (author_counts ?s) with (fst (tables s)).
    rewrite (for_message_in_returns E consumer initial_state Hr).
    rewrite keys_record_all. reflexivity.
  - intros E consumer Hplt Hr.
    rewrite (@for_message_in_bars E consumer Hplt initial_state);
      try assumption.
    + reflexivity.
    + reflexivity.
    + constructor.
Qed.

Lemma C8_witness :
  keys (author_counts
          (snd (for_message_in sample_env sample_consumer initial_state)))
  = [PyStr "a"; PyStr "b"]
  /\ bars_drawn
       (plt_calls
          (snd (for_message_in sample_env sample_consumer initial_state)))
     = [ (ax_count, [PyStr "a"]); (ax_sentiment, [PyStr "a"]);
         (ax_count, [PyStr "a"; PyStr "b"]);
         (ax_sentiment, [PyStr "a"; PyStr "b"]);
         (ax_count, [PyStr "a"; PyStr "b"]);
         (ax_sentiment, [PyStr "a"; PyStr "b"]) ].
Proof.
  split.
  - apply (proj1 (proj2 (proj2 C8_first_appearance_order))
             sample_env sample_consumer).
    reflexivity.
  - apply (proj2 (proj2 (proj2 C8_first_appearance_order))
             sample_env sample_consumer);
      reflexivity.
Defined.

(* ================================================================= *)
(** ** C10: an author that is not a string *)

Lemma dict_get_find d key default :
  dict_get d key default
  = match dict_find d key with Some v => v | None => default end.
Proof.
  induction d as [| [k v] d IH]; simpl.
  - reflexivity.
  - destruct (String.eqb k key); [ reflexivity | exact IH ].
Qed.

Lemma key_eqb_true a b :
  key_eqb a b = true <->
  exists c, py_hash a = Some c /\ py_hash b = Some c.
Proof.
  unfold key_eqb.
  destruct (py_hash a) as [x |], (py_hash b) as [y |];
    try (split; [ discriminate | intros (c & H1 & H2); discriminate ]).
  destruct (key_class_eq_dec x y) as [-> | Hne].
  - split; [ eauto | reflexivity ].
  - split; [ discriminate | ].
    intros (c & [= ->] & [= ->]). congruence.
Qed.

Lemma key_eqb_trans_false k0 a k :
  key_eqb k0 a = true -> key_eqb a k = false -> key_eqb k0 k = false.
Proof.
  intros H1 H2. destruct (key_eqb k0 k) eqn:H3; [ | reflexivity ].
  apply key_eqb_true in H1. destruct H1 as (c & Hk0 & Ha).
  apply key_eqb_true in H3. destruct H3 as (c' & Hk0' & Hk).
  assert (key_eqb a k = true) as H.
  { apply key_eqb_true. exists c. split; [ exact Ha | ]. congruence. }
  congruence.
Qed.

Lemma lookup_update_diff {V} (dflt : V) (f : V -> V) a k (t : table V) :
  key_eqb a k = false ->
  lookup k (defaultdict_update dflt f a t) = lookup k t.
Proof.
  intros Hak. induction t as [| [k0 v0] t IH]; simpl.
  - rewrite Hak. reflexivity.
  - destruct (key_eqb k0 a) eqn:H0; simpl.
    + rewrite (key_eqb_trans_false _ _ _ H0 Hak). reflexivity.
    + destruct (key_eqb k0 k); [ reflexivity | exact IH ].
Qed.

Lemma process_message_unhashable
  (E : env) (m : string) (st : state) (d : list (string * pyval))
  (score : float) :
  json_loads E m = Return (PyDict d) ->
  TextBlob_polarity E (dict_get d "message" (PyStr "")) = Return score ->
  hashable (dict_get d "author" (PyStr "unknown")) = false ->
  process_message E m st
  = (Return tt,
     add_logged
       [ {| lvl := DEBUG; msg := Raw_message m |};
         {| lvl := INFO; msg := Processed_JSON_message (PyDict d) |};
         {| lvl := INFO; msg := Sentiment_score_for_message score |};
         {| lvl := ERROR; msg := Error_processing_message TypeError |} ]
       st).
Proof.
  intros Hl Hp Hh.
  assert (Hb : process_message_try E m st
               = (Raise TypeError,
                  add_logged
                    [ {| lvl := DEBUG; msg := Raw_message m |};
                      {| lvl := INFO;
                         msg := Processed_JSON_message (PyDict d) |};
                      {| lvl := INFO;
                         msg := Sentiment_score_for_message score |} ]
                    st)).
  { unfold process_message_try, analyze_sentiment.
    unfold bind at 1. simpl. unfold bind at 1. unfold lift at 1.
    rewrite Hl. unfold bind at 1. simpl.
    unfold bind at 1. unfold lift at 1. rewrite Hp.
    unfold bind at 1. simpl.
    unfold bind at 1. unfold append_sentiment. rewrite Hh.
    unfold add_logged. simpl. rewrite <- !app_assoc. reflexivity. }
  rewrite (process_message_caught E m st Hb eq_refl).
  unfold add_logged, logger. simpl. rewrite <- app_assoc. reflexivity.
Qed.

(** C10, as the code has it.  ["unknown"] stands in for the author only
    when the object has no ["author"] field.  A field that is there with a
    hashable value (null, a boolean or a number, like a string) has the
    message counted under that value: under the key of the table that
    Python holds equal to it, or, when there is none, under the value
    itself, added as the last key; the count of any key that differs from
    it, ["unknown"] included, is left alone, and null differs from
    ["unknown"].  This is for a message whose text is scored: when the
    scorer raises, neither table changes, whatever the author.  A field
    that holds a list or a dict cannot be a key: neither table changes,
    and when the text has been scored, the [TypeError] of the key is
    caught: [process_message] returns, having logged the score and then
    that error, the one error record of the message, and drawn
    nothing. *)
Theorem C10_author_used_as_key :
  (forall d,
      dict_get d "author" (PyStr "unknown")
      = match dict_find d "author" with
        | Some v => v
        | None => PyStr "unknown"
        end)
  /\ (forall E m st d v score,
         json_loads E m = Return (PyDict d) ->
         dict_find d "author" = Some v ->
         TextBlob_polarity E (dict_get d "message" (PyStr ""))
         = Return score ->
         hashable v = true ->
         lookup v (author_counts (snd (process_message E m st)))
         = Some (value_at 0 v (author_counts st) + 1)
         /\ lookup v (author_sentiments (snd (process_message E m st)))
            = Some (value_at [] v (author_sentiments st) ++ [score])
         /\ keys (author_counts (snd (process_message E m st)))
            = add_key (keys (author_counts st)) v
         /\ (forall k,
                key_eqb v k = false ->
                lookup k (author_counts (snd (process_message E m st)))
                = lookup k (author_counts st)))
  /\ key_eqb PyNone (PyStr "unknown") = false
  /\ (forall E m st d v,
         json_loads E m = Return (PyDict d) ->
         dict_find d "author" = Some v ->
         hashable v = false ->
         tables (snd (process_message E m st)) = tables st)
  /\ (forall E m st d v score,
         json_loads E m = Return (PyDict d) ->
         dict_find d "author" = Some v ->
         TextBlob_polarity E (dict_get d "message" (PyStr ""))
         = Return score ->
         hashable v = false ->
         process_message E m st
         = (Return tt,
            add_logged
              [ {| lvl := DEBUG; msg := Raw_message m |};
                {| lvl := INFO; msg := Processed_JSON_message (PyDict d) |};
                {| lvl := INFO; msg := Sentiment_score_for_message score |};
                {| lvl := ERROR;
                   msg := Error_processing_message TypeError |} ]
              st)
         /\ errors_logged (snd (process_message E m st))
            = S (errors_logged st))
  /\ (forall E m st d e,
         json_loads E m = Return (PyDict d) ->
         TextBlob_polarity E (dict_get d "message" (PyStr "")) = Raise e ->
         tables (snd (process_message E m st)) = tables st).
Proof.
  split; [ | split; [ | split; [ | split; [ | split ] ] ] ].
  - intros d. apply dict_get_find.
  - intros E m st d v score Hl Hf Hp Hh.
    assert (Ha : dict_get d "author" (PyStr "unknown") = v)
      by (rewrite dict_get_find, Hf; reflexivity).
    assert (Hh' : hashable (dict_get d "author" (PyStr "unknown")) = true)
      by (rewrite Ha; exact Hh).
    pose proof (process_message_records E m st Hl Hp Hh') as Ht.
    rewrite Ha in Ht. unfold tables, record in Ht. simpl in Ht.
    injection Ht as Hc Hs. rewrite Hc, Hs.
    split; [ | split; [ | split ] ].
    + apply (lookup_update_same 0 (fun n => n + 1)). exact Hh.
    + apply (lookup_update_same [] (fun scores => scores ++ [score])).
      exact Hh.
    + apply keys_update.
    + intros k Hk. apply lookup_update_diff. exact Hk.
  - reflexivity.
  - intros E m st d v Hl Hf Hh.
    rewrite process_message_tables. unfold contribution. rewrite Hl.
    rewrite (dict_get_find d "author"), Hf.
    destruct (TextBlob_polarity E _); [ | reflexivity ].
    simpl. rewrite Hh. reflexivity.
  - intros E m st d v score Hl Hf Hp Hh.
    assert (Hh' : hashable (dict_get d "author" (PyStr "unknown")) = false)
      by (rewrite dict_get_find, Hf; exact Hh).
    rewrite (process_message_unhashable E m st Hl Hp Hh').
    split; [ reflexivity | ].
    rewrite (@errors_logged_app st _
               [ {| lvl := DEBUG; msg := Raw_message m |};
                 {| lvl := INFO; msg := Processed_JSON_message (PyDict d) |};
                 {| lvl := INFO; msg := Sentiment_score_for_message score |};
                 {| lvl := ERROR;
                    msg := Error_processing_message TypeError |} ]).
    + simpl. lia.
    + reflexivity.
  - intros E m st d e Hl Hp.
    rewrite process_message_tables. unfold contribution.
    rewrite Hl, Hp. reflexivity.
Qed.

Lemma C10_witness :
  (lookup PyNone
     (author_counts
        (snd (process_message sample_env payload_null_author
                initial_state)))
   = Some 1
   /\ lookup PyNone
        (author_sentiments
           (snd (process_message sample_env payload_null_author
                   initial_state)))
      = Some [0%float]
   /\ keys (author_counts
              (snd (process_message sample_env payload_null_author
                      initial_state)))
      = [PyNone]
   /\ (forall k,
          key_eqb PyNone k = false ->
          lookup k
            (author_counts
               (snd (process_message sample_env payload_null_author
                       initial_state)))
          = None))
  /\ tables (snd (process_message sample_env payload_list_author
                    initial_state))
     = ([], [])
  /\ (process_message sample_env payload_list_author initial_state
      = (Return tt,
         add_logged
           [ {| lvl := DEBUG; msg := Raw_message payload_list_author |};
             {| lvl := INFO;
                msg := Processed_JSON_message
                         (PyDict [("author", PyList []);
                                  ("message", PyStr "hi")]) |};
             {| lvl := INFO; msg := Sentiment_score_for_message 0 |};
             {| lvl := ERROR;
                msg := Error_processing_message TypeError |} ]
           initial_state)
      /\ errors_logged
           (snd (process_message sample_env payload_list_author
                   initial_state))
         = 1%nat)
  /\ tables (snd (process_message sample_env payload_number_message
                    initial_state))
     = ([], []).
Proof.
  split; [ | split; [ | split ] ].
  - apply (proj1 (proj2 C10_author_used_as_key) sample_env
             payload_null_author initial_state
             [("author", PyNone); ("message", PyStr "hi")] PyNone 0%float);
      reflexivity.
  - apply (proj1 (proj2 (proj2 (proj2 C10_author_used_as_key))) sample_env
             payload_list_author initial_state
             [("author", PyList []); ("message", PyStr "hi")] (PyList []));
      reflexivity.
  - apply (proj1 (proj2 (proj2 (proj2 (proj2 C10_author_used_as_key))))
             sample_env payload_list_author initial_state
             [("author", PyList []); ("message", PyStr "hi")] (PyList [])
             0%float);
      reflexivity.
  - apply (proj2 (proj2 (proj2 (proj2 (proj2 C10_author_used_as_key))))
             sample_env payload_number_message initial_state
             [("author", PyStr "a"); ("message", PyInt 5)] TypeError);
      reflexivity.
Defined.

(** C10 as stated fails for a value that has no hash: the payload with
    the empty list as its author has the field, with a value that is not a
    string, and its text is scored, yet the list is not made a key: the
    count table stays empty and the message is dropped with one error
    record. *)
Lemma C10_counterexample :
  json_loads sample_env payload_list_author
  = Return (PyDict [("author", PyList []); ("message", PyStr "hi")])
  /\ TextBlob_polarity sample_env (PyStr "hi") = Return 0%float
  /\ keys (author_counts
             (snd (process_message sample_env payload_list_author
                     initial_state)))
     = []
  /\ errors_logged
       (snd (process_message sample_env payload_list_author initial_state))
     = 1%nat.
Proof. repeat split. Qed.

(* ================================================================= *)
(** ** The chart functions against any backend *)

Lemma bind_plt_step {B} E c (k : unit -> M B) st :
  bind (plt E c) k st
  = match matplotlib E c with
    | None => k tt (add_plt_calls [c] st)
    | Some e => (Raise e, add_plt_calls [c] st)
    end.
Proof. unfold bind, plt. destruct (matplotlib E c); reflexivity. Qed.

Lemma add_plt_calls_nil st : add_plt_calls [] st = st.
Proof.
  unfold add_plt_calls. rewrite app_nil_r. destruct st; reflexivity.
Qed.

Lemma plt_all_cons E c rest st :
  plt_all E (c :: rest) st
  = match matplotlib E c with
    | None => plt_all E rest (add_plt_calls [c] st)
    | Some e => (Raise e, add_plt_calls [c] st)
    end.
Proof.
  destruct rest as [| c' rest].
  - simpl. unfold plt. destruct (matplotlib E c); reflexivity.
  - change (plt_all E (c :: c' :: rest))
      with (bind (plt E c) (fun _ => plt_all E (c' :: rest))).
    apply bind_plt_step.
Qed.

Lemma plt_all_until_raise E calls :
  forall st,
    plt_all E calls st
    = (outcome_of (snd (calls_until_raise (matplotlib E) calls)),
       add_plt_calls (fst (calls_until_raise (matplotlib E) calls)) st).
Proof.
  induction calls as [| c rest IH]; intros st.
  - simpl. rewrite add_plt_calls_nil. reflexivity.
  - rewrite plt_all_cons. cbn [calls_until_raise].
    destruct (matplotlib E c) as [e |]; [ reflexivity | ].
    rewrite IH. cbn [fst snd]. rewrite add_plt_calls_app. reflexivity.
Qed.

Lemma update_chart_plt_all E st :
  update_chart E st = plt_all E (count_chart_calls (author_counts st)) st.
Proof.
  unfold update_chart, count_chart_calls.
  rewrite bind_plt_step, plt_all_cons.
  destruct (matplotlib E (ax_clear ax_count)); reflexivity.
Qed.

Lemma update_sentiment_chart_plt_all E st :
  scored (author_sentiments st) ->
  update_sentiment_chart E st
  = plt_all E (sentiment_chart_calls (author_sentiments st)) st.
Proof.
  intros Hs. unfold update_sentiment_chart, sentiment_chart_calls.
  rewrite bind_plt_step, plt_all_cons.
  destruct (matplotlib E (ax_clear ax_sentiment)); [ reflexivity | ].
  rewrite bind_get. cbv beta zeta.
  change (author_sentiments (add_plt_calls _ st))
    with (author_sentiments st).
  rewrite (avg_comprehension_scored Hs), bind_lift_Return.
  reflexivity.
Qed.

(** X1. Against any backend, [update_chart] makes the calls clear, bar
    (the keys of [author_counts] with their counts), the three labels, the
    tick labels, tight_layout, draw and pause in this order, up to and
    including the first call that raises; it raises what that call raises
    and returns when none does.  It changes nothing else: the tables, the
    log and the consumer are as before. *)
Theorem X1_update_chart_calls (E : env) (st : state) :
  update_chart E st
  = (outcome_of
       (snd (calls_until_raise (matplotlib E)
               (count_chart_calls (author_counts st)))),
     add_plt_calls
       (fst (calls_until_raise (matplotlib E)
               (count_chart_calls (author_counts st))))
       st).
Proof.
  rewrite update_chart_plt_all. apply plt_all_until_raise.
Qed.

(** X2. When every author has a score, [update_sentiment_chart] makes its
    calls (clear, the bars of the means, labels, tick labels,
    tight_layout, draw, pause) in order up to and including the first
    that raises, raises what that call raises and returns when none does;
    the tables, the log and the consumer are as before. *)
Theorem X2_update_sentiment_chart_calls (E : env) (st : state) :
  scored (author_sentiments st) ->
  update_sentiment_chart E st
  = (outcome_of
       (snd (calls_until_raise (matplotlib E)
               (sentiment_chart_calls (author_sentiments st)))),
     add_plt_calls
       (fst (calls_until_raise (matplotlib E)
               (sentiment_chart_calls (author_sentiments st))))
       st).
Proof.
  intros Hs. rewrite update_sentiment_chart_plt_all by exact Hs.
  apply plt_all_until_raise.
Qed.

Lemma X2_witness :
  update_sentiment_chart broken_plot_env
    (snd (process_message sample_env payload_a_great initial_state))
  = (Raise OtherError,
     add_plt_calls
       [ ax_clear ax_sentiment;
         ax_bar ax_sentiment [PyStr "a"] [PyFloat 0.8] "lightgreen" ]
       (snd (process_message sample_env payload_a_great initial_state))).
Proof.
  apply (@X2_update_sentiment_chart_calls broken_plot_env
           (snd (process_message sample_env payload_a_great initial_state))).
  repeat constructor. discriminate.
Defined.

Lemma all_scored_scored (t : table (list float)) :
  all_scored (values t) = true -> scored t.
Proof.
  unfold all_scored, scored. induction t as [| [k scores] t IH]; simpl.
  - constructor.
  - intros H. apply andb_prop in H. destruct H as [H1 H2].
    constructor; [ | apply IH; exact H2 ].
    simpl. intros ->. discriminate H1.
Qed.

Lemma avg_comprehension_all_scored (vals : list (list float)) :
  avg_comprehension vals
  = if all_scored vals then Return (map mean vals)
    else Raise ZeroDivisionError.
Proof.
  unfold all_scored. induction vals as [| scores vals IH]; simpl.
  - reflexivity.
  - unfold truediv at 1. fold (mean scores).
    destruct (len scores =? 0); simpl; [ reflexivity | ].
    rewrite IH. destruct (forallb _ vals); reflexivity.
Qed.

(** X3. The list comprehension of averages returns the mean of every list
    when no list is empty, and raises [ZeroDivisionError] as soon as one
    is: an empty list of scores has no average. *)
Theorem X3_avg_comprehension (vals : list (list float)) :
  avg_comprehension vals
  = if all_scored vals then Return (map mean vals)
    else Raise ZeroDivisionError.
Proof. apply avg_comprehension_all_scored. Qed.

(** X4. If some author had an empty list of scores,
    [update_sentiment_chart] would clear the sentiment axes and then
    raise [ZeroDivisionError] without drawing a bar (or raise what the
    clearing raises); the tables and the log stay as they are. *)
Theorem X4_update_sentiment_chart_empty_scores (E : env) (st : state) :
  all_scored (values (author_sentiments st)) = false ->
  update_sentiment_chart E st
  = (Raise match matplotlib E (ax_clear ax_sentiment) with
           | Some e => e
           | None => ZeroDivisionError
           end,
     add_plt_calls [ax_clear ax_sentiment] st).
Proof.
  intros H. unfold update_sentiment_chart. rewrite bind_plt_step.
  destruct (matplotlib E (ax_clear ax_sentiment)); [ reflexivity | ].
  rewrite bind_get. cbv beta zeta.
  change (author_sentiments (add_plt_calls _ st))
    with (author_sentiments st).
  rewrite avg_comprehension_all_scored, H. reflexivity.
Qed.

Lemma X4_witness :
  update_sentiment_chart sample_env unscored_state
  = (Raise ZeroDivisionError,
     add_plt_calls [ax_clear ax_sentiment] unscored_state).
Proof.
  apply (@X4_update_sentiment_chart_empty_scores sample_env unscored_state).
  reflexivity.
Defined.

(* ================================================================= *)
(** ** One message: the other ways through [process_message] *)

Lemma process_message_try_loads_raises E m st e :
  json_loads E m = Raise e ->
  process_message_try E m st
  = (Raise e, add_logged [{| lvl := DEBUG; msg := Raw_message m |}] st).
Proof.
  intros H. unfold process_message_try.
  unfold bind at 1. simpl. unfold bind at 1. unfold lift at 1.
  rewrite H. reflexivity.
Qed.

Lemma process_message_uncaught E m st e st1 :
  process_message_try E m st = (Raise e, st1) ->
  is_Exception e = false ->
  process_message E m st = (Raise e, st1).
Proof.
  intros Hb He. unfold process_message, try_except. rewrite Hb.
  destruct e; try discriminate He; reflexivity.
Qed.

Lemma process_message_loads_raises E m st e :
  json_loads E m = Raise e ->
  process_message E m st
  = if is_Exception e
    then (Return tt,
          add_logged [ {| lvl := DEBUG; msg := Raw_message m |};
                       {| lvl := ERROR; msg := except_msg m e |} ] st)
    else (Raise e,
          add_logged [ {| lvl := DEBUG; msg := Raw_message m |} ] st).
Proof.
  intros H.
  pose proof (process_message_try_loads_raises E m st H) as Hb.
  destruct (is_Exception e) eqn:He.
  - rewrite (process_message_caught E m st Hb He).
    unfold add_logged, logger. simpl. rewrite <- app_assoc. reflexivity.
  - apply (process_message_uncaught E m st Hb He).
Qed.

(** X5. Whatever [json.loads] raises, the payload changes neither table
    and draws nothing.  An [Exception] (a [TypeError] for a payload that
    is not text, as well as a [JSONDecodeError]) is logged as one error
    record after the raw payload, and [process_message] returns; an
    exception that is not an [Exception] goes through to the caller, with
    only the raw payload logged. *)
Theorem X5_decode_raises (E : env) (m : string) (st : state) (e : exn) :
  json_loads E m = Raise e ->
  process_message E m st
  = if is_Exception e
    then (Return tt,
          add_logged [ {| lvl := DEBUG; msg := Raw_message m |};
                       {| lvl := ERROR; msg := except_msg m e |} ] st)
    else (Raise e,
          add_logged [ {| lvl := DEBUG; msg := Raw_message m |} ] st).
Proof. apply process_message_loads_raises. Qed.

Lemma X5_witness :
  process_message (bad_payload_env TypeError) payload_a_great initial_state
  = (Return tt,
     add_logged
       [ {| lvl := DEBUG; msg := Raw_message payload_a_great |};
         {| lvl := ERROR; msg := Error_processing_message TypeError |} ]
       initial_state)
  /\ process_message (bad_payload_env KeyboardInterrupt) payload_a_great
       initial_state
     = (Raise KeyboardInterrupt,
        add_logged [ {| lvl := DEBUG; msg := Raw_message payload_a_great |} ]
          initial_state).
Proof.
  split.
  - apply (@X5_decode_raises (bad_payload_env TypeError) payload_a_great
             initial_state TypeError).
    reflexivity.
  - apply (@X5_decode_raises (bad_payload_env KeyboardInterrupt)
             payload_a_great initial_state KeyboardInterrupt).
    reflexivity.
Defined.

(** X6. A payload that decodes to an object whose author is a list or a
    dict is scored first and then dropped: the score is logged, the
    [TypeError] of the unhashable key is logged as the one error record,
    no chart is touched, neither table changes, and [process_message]
    returns. *)
Theorem X6_unhashable_author_dropped
  (E : env) (m : string) (st : state) (d : list (string * pyval))
  (score : float) :
  json_loads E m = Return (PyDict d) ->
  TextBlob_polarity E (dict_get d "message" (PyStr "")) = Return score ->
  hashable (dict_get d "author" (PyStr "unknown")) = false ->
  process_message E m st
  = (Return tt,
     add_logged
       [ {| lvl := DEBUG; msg := Raw_message m |};
         {| lvl := INFO; msg := Processed_JSON_message (PyDict d) |};
         {| lvl := INFO; msg := Sentiment_score_for_message score |};
         {| lvl := ERROR; msg := Error_processing_message TypeError |} ]
       st).
Proof. apply process_message_unhashable. Qed.

Lemma X6_witness :
  process_message sample_env payload_list_author initial_state
  = (Return tt,
     add_logged
       [ {| lvl := DEBUG; msg := Raw_message payload_list_author |};
         {| lvl := INFO;
            msg := Processed_JSON_message
                     (PyDict [("author", PyList []);
                              ("message", PyStr "hi")]) |};
         {| lvl := INFO; msg := Sentiment_score_for_message 0 |};
         {| lvl := ERROR; msg := Error_processing_message TypeError |} ]
       initial_state).
Proof.
  apply (@X6_unhashable_author_dropped sample_env payload_list_author
           initial_state
           [("author", PyList []); ("message", PyStr "hi")] 0%float);
    reflexivity.
Defined.

(** X7. An exception that is not an [Exception] is not swallowed: when
    the [try] suite raises one, [process_message] raises it with the
    state the suite had reached and logs no error.  In particular a
    [KeyboardInterrupt] that comes while the charts are drawn leaves the
    count and the score of the message in the tables. *)
Theorem X7_interrupt_not_swallowed :
  (forall E m st e st1,
      process_message_try E m st = (Raise e, st1) ->
      is_Exception e = false ->
      process_message E m st = (Raise e, st1))
  /\ (forall E m st d score e,
         json_loads E m = Return (PyDict d) ->
         TextBlob_polarity E (dict_get d "message" (PyStr ""))
         = Return score ->
         hashable (dict_get d "author" (PyStr "unknown")) = true ->
         fst (render E m
                (updated_state m d (dict_get d "author" (PyStr "unknown"))
                   score st))
         = Raise e ->
         is_Exception e = false ->
         fst (process_message E m st) = Raise e
         /\ tables (snd (process_message E m st))
            = record (dict_get d "author" (PyStr "unknown")) score
                (tables st)
         /\ errors_logged (snd (process_message E m st))
            = errors_logged st).
Proof.
  split.
  - intros E m st e st1. apply process_message_uncaught.
  - intros E m st d score e Hl Hp Hh Hr He.
    pose proof (process_message_try_updated E m st Hl Hp Hh) as Ht.
    pose proof (render_raises_logged E m _ Hr) as Hlog.
    destruct (render E m _) as [o st1] eqn:Hrender in Ht, Hr, Hlog.
    simpl in Hr, Hlog. subst o.
    split; [ | split ].
    + rewrite (process_message_uncaught E m st Ht He). reflexivity.
    + apply (process_message_records E m st Hl Hp Hh).
    + rewrite (process_message_uncaught E m st Ht He). simpl.
      rewrite (@errors_logged_app st st1
                 [ {| lvl := DEBUG; msg := Raw_message m |};
                   {| lvl := INFO;
                      msg := Processed_JSON_message (PyDict d) |};
                   {| lvl := INFO;
                      msg := Sentiment_score_for_message score |};
                   {| lvl := INFO;
                      msg := Updated_author_counts
                               (fst (record
                                       (dict_get d "author" (PyStr "unknown"))
                                       score (tables st))) |} ]).
      * simpl. lia.
      * rewrite Hlog. reflexivity.
Qed.

Lemma X7_witness :
  fst (process_message interrupted_env payload_a_great initial_state)
  = Raise KeyboardInterrupt
  /\ tables (snd (process_message interrupted_env payload_a_great
                    initial_state))
     = ([(PyStr "a", 1)], [(PyStr "a", [0.8%float])])
  /\ errors_logged (snd (process_message interrupted_env payload_a_great
                           initial_state))
     = 0%nat.
Proof.
  apply (proj2 X7_interrupt_not_swallowed interrupted_env payload_a_great
           initial_state
           [("author", PyStr "a"); ("message", PyStr "great")]
           0.8%float KeyboardInterrupt);
    reflexivity.
Defined.

Lemma process_message_returned E m st a st1 :
  process_message_try E m st = (Return a, st1) ->
  process_message E m st = (Return a, st1).
Proof.
  intros Hb. unfold process_message, try_except. rewrite Hb. reflexivity.
Qed.

Lemma render_returns_logged E m st a :
  fst (render E m st) = Return a ->
  logged (snd (render E m st))
  = logged st
    ++ [{| lvl := INFO; msg := Charts_updated_successfully m |}].
Proof.
  unfold render. unfold bind at 1 3.
  pose proof (keeps_update_chart_logged E st) as H1.
  destruct (update_chart E st) as [[[] | e1] st1]; simpl in *;
    [ | discriminate ].
  unfold bind at 1 2.
  pose proof (keeps_update_sentiment_chart_logged E st1) as H2.
  destruct (update_sentiment_chart E st1) as [[[] | e2] st2]; simpl in *;
    [ | discriminate ].
  intros _. congruence.
Qed.

(** X8. Every call of [process_message] only adds to the log, the raw
    payload first.  When it returns, the last record it logged is either
    the success record "Charts updated successfully" or an error record,
    and no other record it logged is an error: a message is reported as
    drawn or as failed, once.  When it raises, it has logged no error. *)
Theorem X8_one_report_per_message (E : env) (m : string) (st : state) :
  exists new,
    logged (snd (process_message E m st))
    = logged st ++ {| lvl := DEBUG; msg := Raw_message m |} :: new
    /\ match fst (process_message E m st) with
       | Return _ =>
           exists mid last,
             new = mid ++ [last]
             /\ filter is_error mid = []
             /\ (last = {| lvl := INFO;
                           msg := Charts_updated_successfully m |}
                 \/ lvl last = ERROR)
       | Raise _ => filter is_error new = []
       end.
Proof.
  destruct (json_loads E m) as [v | e] eqn:Hl.
  - destruct (isinstance_dict v) eqn:Hv.
    + destruct v; try discriminate Hv.
      destruct (TextBlob_polarity E (dict_get d "message" (PyStr "")))
        as [score | e] eqn:Hp.
      * destruct (hashable (dict_get d "author" (PyStr "unknown")))
          eqn:Hh.
        -- pose proof (process_message_try_updated E m st Hl Hp Hh) as Ht.
           pose proof (render_raises_logged E m
                         (updated_state m d
                            (dict_get d "author" (PyStr "unknown"))
                            score st)) as Hraise.
           pose proof (render_returns_logged E m
                         (updated_state m d
                            (dict_get d "author" (PyStr "unknown"))
                            score st)) as Hret.
           destruct (render E m _) as [[[] | e] st1].
           ++ rewrite (process_message_returned E m st Ht).
              cbn [fst snd] in *. rewrite (Hret tt eq_refl).
              eexists. split.
              ** cbn [updated_state logged]. rewrite <- ?app_assoc.
                 reflexivity.
              ** eexists [_; _; _], _. simpl. eauto.
           ++ cbn [fst snd] in *. specialize (Hraise e eq_refl).
              destruct (is_Exception e) eqn:He.
              ** rewrite (process_message_caught E m st Ht He).
                 cbn [fst snd logger logged]. rewrite Hraise.
                 eexists. split.
                 --- cbn [updated_state logged]. rewrite <- ?app_assoc.
                     reflexivity.
                 --- eexists [_; _; _], _. simpl. eauto.
              ** rewrite (process_message_uncaught E m st Ht He).
                 cbn [fst snd]. rewrite Hraise.
                 eexists. split.
                 --- cbn [updated_state logged]. rewrite <- ?app_assoc.
                     reflexivity.
                 --- reflexivity.
        -- rewrite (process_message_unhashable E m st Hl Hp Hh).
           eexists. split; [ reflexivity | ].
           eexists [_; _], _. simpl. eauto.
      * pose proof (process_message_try_scorer_raises E m st Hl Hp) as Hb.
        destruct (is_Exception e) eqn:He.
        -- rewrite (process_message_caught E m st Hb He).
           eexists. split.
           ++ cbn [fst snd logger logged]. rewrite <- ?app_assoc.
              reflexivity.
           ++ eexists [_], _. simpl. eauto.
        -- rewrite (process_message_uncaught E m st Hb He).
           eexists. split; [ reflexivity | reflexivity ].
    + rewrite (process_message_not_dict E m st Hl Hv).
      eexists. split.
      * cbn [fst snd logged]. rewrite <- ?app_assoc. reflexivity.
      * eexists [_], _. simpl. eauto.
  - rewrite (process_message_loads_raises E m st Hl).
    destruct (is_Exception e).
    + eexists. split; [ reflexivity | ].
      eexists [], _. simpl. eauto.
    + eexists. split; [ reflexivity | reflexivity ].
Qed.

(* ================================================================= *)
(** ** The tables as dicts: keys, counts and histories *)

Lemma key_eqb_sym a b : key_eqb a b = key_eqb b a.
Proof.
  destruct (key_eqb a b) eqn:H1, (key_eqb b a) eqn:H2; try reflexivity.
  - apply key_eqb_true in H1. destruct H1 as (c & Ha & Hb).
    assert (key_eqb b a = true) by (apply key_eqb_true; eauto).
    congruence.
  - apply key_eqb_true in H2. destruct H2 as (c & Hb & Ha).
    assert (key_eqb a b = true) by (apply key_eqb_true; eauto).
    congruence.
Qed.

Lemma key_eqb_trans a b c :
  key_eqb a b = true -> key_eqb b c = true -> key_eqb a c = true.
Proof.
  intros H1 H2.
  apply key_eqb_true in H1. destruct H1 as (x & Ha & Hb).
  apply key_eqb_true in H2. destruct H2 as (y & Hb' & Hc).
  apply key_eqb_true. exists x. split; [ exact Ha | congruence ].
Qed.

Lemma key_eqb_hashable a b : key_eqb a b = true -> hashable a = true.
Proof.
  intros H. apply key_eqb_true in H. destruct H as (c & Ha & _).
  unfold hashable. rewrite Ha. reflexivity.
Qed.

(** As [for_message_in_tables_invariant], for a property that only
    recording under a hashable author keeps. *)
Lemma for_message_in_tables_invariant_hashable E
  (P : table Z * table (list float) -> Prop) :
  (forall a s t, hashable a = true -> P t -> P (record a s t)) ->
  forall consumer st,
    P (tables st) -> P (tables (snd (for_message_in E consumer st))).
Proof.
  intros Hrec consumer.
  induction consumer as [| [r | e] rest IH]; intros st HP.
  - exact HP.
  - rewrite for_message_in_Yield.
    set (st0 := snd (logger DEBUG _ st)).
    pose proof (process_message_tables E (value r) st0) as Ht.
    assert (HP1 : P (tables (snd (process_message E (value r) st0)))).
    { rewrite Ht.
      destruct (contribution E (value r)) as [[a s] |] eqn:Hc; simpl.
      - destruct (contribution_inv E (value r) Hc) as (d & _ & _ & _ & Hh).
        apply Hrec; [ exact Hh | exact HP ].
      - exact HP. }
    destruct (process_message E (value r) st0) as [[[] | e] st1];
      simpl in HP1.
    + apply IH. exact HP1.
    + exact HP1.
  - exact HP.
Qed.

Lemma distinct_keys_add_key seen a :
  hashable a = true ->
  distinct_keys seen = true -> distinct_keys (add_key seen a) = true.
Proof.
  intros Ha. unfold add_key.
  destruct (existsb (fun k => key_eqb k a) seen) eqn:Hex; [ auto | ].
  induction seen as [| k seen IH]; simpl in *.
  - intros _. rewrite Ha. reflexivity.
  - apply orb_false_elim in Hex. destruct Hex as [Hka Hex].
    intros H. apply andb_prop in H. destruct H as [H Hd].
    apply andb_prop in H. destruct H as [Hk Hn].
    rewrite Hk, (IH Hex Hd), existsb_app. simpl.
    rewrite Hka, orb_false_r, Hn. reflexivity.
Qed.

(** X10. In every state the loop reaches from the empty tables, the keys
    of [author_counts] are values that can be dict keys and no two of
    them are equal as Python compares keys, as in a dict; and
    [author_sentiments] has the same keys. *)
Theorem X10_keys_distinct (E : env) (consumer : list pull) :
  distinct_keys
    (keys (author_counts (snd (for_message_in E consumer initial_state))))
  = true
  /\ distinct_keys
       (keys (author_sentiments
                (snd (for_message_in E consumer initial_state))))
     = true.
Proof.
  assert (H : distinct_keys
                (keys (fst (tables
                              (snd (for_message_in E consumer
                                      initial_state)))))
              = true
              /\ distinct_keys
                   (keys (snd (tables
                                 (snd (for_message_in E consumer
                                         initial_state)))))
                 = true).
  { apply (for_message_in_tables_invariant_hashable E
             (fun t => distinct_keys (keys (fst t)) = true
                       /\ distinct_keys (keys (snd t)) = true)).
    - intros a s t Ha [H1 H2]. unfold record. cbn [fst snd].
      rewrite !keys_update.
      split; apply distinct_keys_add_key; assumption.
    - split; reflexivity. }
  exact H.
Qed.

(** X11. In every state the loop reaches from the empty tables, every
    count in [author_counts] is at least 1: a key is created by the
    first message counted under it. *)
Theorem X11_counts_positive (E : env) (consumer : list pull) :
  Forall (fun kv => 1 <= snd kv)
    (author_counts (snd (for_message_in E consumer initial_state))).
Proof.
  apply (for_message_in_tables_invariant E
           (fun t => Forall (fun kv => 1 <= snd kv) (fst t))).
  - intros a s t. unfold record. cbn [fst].
    generalize (fst t). intros c H.
    induction c as [| [k n] c IH]; simpl.
    + constructor; [ simpl; lia | constructor ].
    + inversion H; subst. simpl in *.
      destruct (key_eqb k a); constructor; simpl; auto; lia.
  - constructor.
Qed.

Lemma lookup_update_eq {V} (dflt : V) (f : V -> V) a k (t : table V) :
  key_eqb a k = true ->
  lookup k (defaultdict_update dflt f a t) = Some (f (value_at dflt k t)).
Proof.
  intros Hak. unfold value_at.
  induction t as [| [k0 v0] t IH]; simpl.
  - rewrite Hak. reflexivity.
  - destruct (key_eqb k0 a) eqn:H0; simpl.
    + rewrite (key_eqb_trans _ _ _ H0 Hak). reflexivity.
    + destruct (key_eqb k0 k) eqn:H1; [ | exact IH ].
      rewrite key_eqb_sym in Hak.
      rewrite (key_eqb_trans _ _ _ H1 Hak) in H0. discriminate.
Qed.

Lemma value_at_update {V} (dflt : V) (f : V -> V) a k (t : table V) :
  value_at dflt k (defaultdict_update dflt f a t)
  = if key_eqb a k then f (value_at dflt k t) else value_at dflt k t.
Proof.
  destruct (key_eqb a k) eqn:Hak.
  - unfold value_at at 1. rewrite (@lookup_update_eq V dflt f a k t Hak).
    reflexivity.
  - unfold value_at. rewrite (@lookup_update_diff V dflt f a k t Hak).
    reflexivity.
Qed.

Lemma scores_of_cons k a s cs :
  scores_of k ((a, s) :: cs)
  = if key_eqb a k then s :: scores_of k cs else scores_of k cs.
Proof. unfold scores_of. simpl. destruct (key_eqb a k); reflexivity. Qed.

Lemma lookup_record_all k cs :
  forall t,
    lookup k (fst (record_all cs t))
    = match scores_of k cs with
      | [] => lookup k (fst t)
      | l => Some (value_at 0 k (fst t) + len l)
      end
    /\ lookup k (snd (record_all cs t))
       = match scores_of k cs with
         | [] => lookup k (snd t)
         | l => Some (value_at [] k (snd t) ++ l)
         end.
Proof.
  induction cs as [| [a s] cs IH]; intros t.
  - split; reflexivity.
  - change (record_all ((a, s) :: cs) t)
      with (record_all cs (record a s t)).
    destruct (IH (record a s t)) as [IH1 IH2]. rewrite IH1, IH2.
    rewrite scores_of_cons. unfold record. cbn [fst snd].
    rewrite !value_at_update.
    destruct (key_eqb a k) eqn:Hak.
    + rewrite (@lookup_update_eq _ 0 (fun n => n + 1) a k (fst t) Hak).
      rewrite (@lookup_update_eq _ [] (fun scores => scores ++ [s])
                 a k (snd t) Hak).
      destruct (scores_of k cs) as [| s' l].
      * split; reflexivity.
      * split.
        -- f_equal. unfold len. simpl List.length.
           rewrite !Nat2Z.inj_succ. lia.
        -- rewrite <- app_assoc. reflexivity.
    + rewrite (@lookup_update_diff _ 0 (fun n => n + 1) a k (fst t) Hak).
      rewrite (@lookup_update_diff _ [] (fun scores => scores ++ [s])
                 a k (snd t) Hak).
      split; reflexivity.
Qed.

(** X12. When the loop has run to the end of the stream from the empty
    tables, a key [k] is in the tables exactly when some payload
    contributed under an author equal to [k]; its count is then the
    number of those payloads and its list in [author_sentiments] is their
    scores in order of arrival. *)
Theorem X12_tables_per_author (E : env) (consumer : list pull) (k : pyval) :
  fst (for_message_in E consumer initial_state) = Return tt ->
  lookup k (author_counts (snd (for_message_in E consumer initial_state)))
  = match scores_of k (contributions E (payloads consumer)) with
    | [] => None
    | l => Some (len l)
    end
  /\ lookup k
       (author_sentiments (snd (for_message_in E consumer initial_state)))
     = match scores_of k (contributions E (payloads consumer)) with
       | [] => None
       | l => Some l
       end.
Proof.
  intros Hr.
  pose proof (for_message_in_returns E consumer initial_state Hr) as Ht.
  destruct (lookup_record_all k (contributions E (payloads consumer))
              (tables initial_state)) as [H1 H2].
  rewrite <- Ht in H1, H2.
  change (fst (tables ?s)) with (author_counts s) in H1.
  change (snd (tables ?s)) with (author_sentiments s) in H2.
  rewrite H1, H2.
  destruct (scores_of k (contributions E (payloads consumer)));
    split; reflexivity.
Qed.

Lemma X12_witness :
  lookup (PyStr "a")
    (author_counts (snd (for_message_in sample_env sample_consumer
                           initial_state)))
  = Some 2
  /\ lookup (PyStr "a")
       (author_sentiments (snd (for_message_in sample_env sample_consumer
                                  initial_state)))
     = Some [0.8%float; 0%float].
Proof.
  apply (@X12_tables_per_author sample_env sample_consumer (PyStr "a")).
  reflexivity.
Defined.

(* ================================================================= *)
(** ** [main] from start to end *)

Lemma main_poll_eq E topic consumer st :
  main_poll E topic consumer st
  = (main_outcome (fst (for_message_in E consumer st)),
     close_with (main_closing topic (fst (for_message_in E consumer st)))
       (snd (for_message_in E consumer st))).
Proof.
  unfold main_poll, try_finally, try_except.
  destruct (for_message_in E consumer st) as [[[] | e] st1].
  - reflexivity.
  - destruct e; cbn; unfold close_with; cbn; rewrite <- ?app_assoc;
      reflexivity.
Qed.

Lemma main_eq E st :
  main E st
  = match create_kafka_consumer E (configured_topic E)
            (configured_group_id E) with
    | Raise e => (Raise e, add_logged (main_preamble E) st)
    | Return consumer =>
        bind (main_poll E (configured_topic E) consumer)
          (fun _ =>
             logger INFO
               (END_consumer (configured_topic E) (configured_group_id E)))
          (main_polling E st)
    end.
Proof.
  unfold main, get_kafka_topic, get_kafka_consumer_group_id.
  fold (configured_topic E). fold (configured_group_id E).
  unfold bind at 1. cbn [logger].
  unfold bind at 1. unfold bind at 1. cbn [logger ret].
  unfold bind at 1. unfold bind at 1. cbn [logger ret].
  unfold bind at 1. cbn [logger].
  unfold bind at 1. unfold lift at 1.
  destruct (create_kafka_consumer E (configured_topic E)
              (configured_group_id E)) as [consumer | e].
  - unfold bind at 1. cbn [logger].
    unfold main_polling, main_preamble, add_logged. cbn.
    rewrite <- !app_assoc. reflexivity.
  - unfold main_preamble, add_logged. cbn.
    rewrite <- !app_assoc. reflexivity.
Qed.

(** X13. The [try] of [main] ends in one of four ways, and closes the
    consumer once in each.  At the end of the stream it logs that the
    consumer is closed and goes on; a [KeyboardInterrupt], from the
    consumer or from inside a message, is logged as a warning first, and
    an [Exception] of the consumer as an error carrying it, and [main]
    goes on as well; any other exception is let through after the
    consumer is closed. *)
Theorem X13_main_try_paths
  (E : env) (topic : string) (consumer : list pull) (st : state) :
  main_poll E topic consumer st
  = (main_outcome (fst (for_message_in E consumer st)),
     close_with (main_closing topic (fst (for_message_in E consumer st)))
       (snd (for_message_in E consumer st))).
Proof. apply main_poll_eq. Qed.

(** X14. When [create_kafka_consumer] raises, [main] raises the same
    exception: it has logged its start, the topic and the group id (from
    the environment, or "unknown_topic" and "default_group"), it has
    processed nothing, and it closes no consumer. *)
Theorem X14_main_without_consumer (E : env) (st : state) (e : exn) :
  create_kafka_consumer E (configured_topic E) (configured_group_id E)
  = Raise e ->
  main E st = (Raise e, add_logged (main_preamble E) st).
Proof. intros H. rewrite main_eq, H. reflexivity. Qed.

Lemma X14_witness :
  main no_broker_env initial_state
  = (Raise OtherError,
     add_logged
       [ {| lvl := INFO; msg := START_consumer |};
         {| lvl := INFO; msg := Kafka_topic "buzzline" |};
         {| lvl := INFO; msg := Kafka_consumer_group_id "default_group" |};
         {| lvl := INFO;
            msg := Consumer_topic_and_group "buzzline" "default_group" |} ]
       initial_state).
Proof.
  apply (@X14_main_without_consumer no_broker_env initial_state OtherError).
  reflexivity.
Defined.

(** X15. When [create_kafka_consumer] returns a consumer, [main] runs the
    loop over it from the state in which it has logged its start, the
    topic, the group id and that it polls; it closes the consumer once
    and logs how the loop ended; and it logs its end and returns, unless
    the loop raised an exception that is neither a [KeyboardInterrupt]
    nor an [Exception], which [main] raises without logging its end. *)
Theorem X15_main_with_consumer
  (E : env) (st : state) (consumer : list pull) :
  create_kafka_consumer E (configured_topic E) (configured_group_id E)
  = Return consumer ->
  main E st
  = match main_outcome
            (fst (for_message_in E consumer (main_polling E st))) with
    | Return _ =>
        (Return tt,
         add_logged
           [ {| lvl := INFO;
                msg := END_consumer (configured_topic E)
                         (configured_group_id E) |} ]
           (close_with
              (main_closing (configured_topic E)
                 (fst (for_message_in E consumer (main_polling E st))))
              (snd (for_message_in E consumer (main_polling E st)))))
    | Raise e =>
        (Raise e,
         close_with
           (main_closing (configured_topic E)
              (fst (for_message_in E consumer (main_polling E st))))
           (snd (for_message_in E consumer (main_polling E st))))
    end.
Proof.
  intros H. rewrite main_eq, H. unfold bind. rewrite main_poll_eq.
  destruct (main_outcome _); reflexivity.
Qed.

Lemma X15_witness :
  fst (main sample_env initial_state) = Return tt
  /\ consumer_closed (snd (main sample_env initial_state)) = 1%nat
  /\ tables (snd (main sample_env initial_state))
     = ([(PyStr "a", 2); (PyStr "b", 1)],
        [(PyStr "a", [0.8%float; 0%float]); (PyStr "b", [(-0.6)%float])]).
Proof.
  rewrite (@X15_main_with_consumer sample_env initial_state sample_consumer
             eq_refl).
  repeat split; vm_compute; reflexivity.
Defined.

Lemma main_tables E st :
  tables (snd (main E st))
  = match create_kafka_consumer E (configured_topic E)
            (configured_group_id E) with
    | Raise _ => tables st
    | Return consumer =>
        tables (snd (for_message_in E consumer (main_polling E st)))
    end.
Proof.
  rewrite main_eq.
  destruct (create_kafka_consumer E (configured_topic E)
              (configured_group_id E)) as [consumer | e];
    [ | reflexivity ].
  unfold bind. rewrite main_poll_eq.
  destruct (main_outcome _); reflexivity.
Qed.

(** X16. Whatever the libraries do, when [main] is over (returned or
    raised) after starting with empty tables, the two tables have the
    same keys with as many scores as counted, every list of scores has a
    score, and the consumer has been closed at most once: exactly once
    when it could be created. *)
Theorem X16_main_leaves_tables_in_step (E : env) :
  synchronized (snd (main E initial_state))
  /\ scored (author_sentiments (snd (main E initial_state)))
  /\ consumer_closed (snd (main E initial_state))
     = match create_kafka_consumer E (configured_topic E)
               (configured_group_id E) with
       | Return _ => 1%nat
       | Raise _ => 0%nat
       end.
Proof.
  assert (Ht : in_step (tables (snd (main E initial_state)))
               /\ scored (snd (tables (snd (main E initial_state))))).
  { rewrite main_tables.
    destruct (create_kafka_consumer E (configured_topic E)
                (configured_group_id E)) as [consumer | e].
    - apply (for_message_in_tables_invariant E
               (fun t => in_step t /\ scored (snd t))).
      + intros a s t [H1 H2]. split.
        * apply in_step_record. exact H1.
        * simpl. apply scored_update. exact H2.
      + split; [ reflexivity | constructor ].
    - split; [ reflexivity | constructor ]. }
  destruct Ht as [H1 H2].
  split; [ apply in_step_synchronized; exact H1 | split; [ exact H2 | ] ].
  rewrite main_eq.
  destruct (create_kafka_consumer E (configured_topic E)
              (configured_group_id E)) as [consumer | e];
    [ | reflexivity ].
  unfold bind. rewrite main_poll_eq.
  pose proof (keeps_for_message_in_closed E consumer
                (main_polling E initial_state)) as Hk.
  destruct (main_outcome _); cbn [snd logger add_logged close_with
                                  consumer_closed];
    rewrite Hk; reflexivity.
Qed.

(* ================================================================= *)
(** ** What a message cannot do to the tables *)

(** X17. The history of an author is only ever extended: after any
    message, a key of [author_sentiments] is still a key, and its list of
    scores is the list it had, or that list with one score appended. *)
Theorem X17_sentiments_append_only
  (E : env) (m : string) (st : state) (k : pyval) (scores : list float) :
  lookup k (author_sentiments st) = Some scores ->
  lookup k (author_sentiments (snd (process_message E m st))) = Some scores
  \/ exists score,
       lookup k (author_sentiments (snd (process_message E m st)))
       = Some (scores ++ [score]).
Proof.
  intros Hk.
  assert (Hs : author_sentiments (snd (process_message E m st))
               = snd (record_contribution (contribution E m) (tables st))).
  { rewrite <- process_message_tables. reflexivity. }
  rewrite Hs.
  destruct (contribution E m) as [[a s] |]; simpl.
  - destruct (@lookup_update_other _ [] (fun l => l ++ [s]) a k
                (author_sentiments st) scores Hk) as [H | H].
    + left. exact H.
    + right. exists s. exact H.
  - left. exact Hk.
Qed.

Lemma X17_witness :
  lookup (PyStr "a")
    (author_sentiments
       (snd (process_message sample_env payload_a_ok
               (snd (process_message sample_env payload_a_great
                       initial_state)))))
  = Some [0.8%float]
  \/ exists score,
       lookup (PyStr "a")
         (author_sentiments
            (snd (process_message sample_env payload_a_ok
                    (snd (process_message sample_env payload_a_great
                            initial_state)))))
       = Some ([0.8%float] ++ [score]).
Proof.
  apply (@X17_sentiments_append_only sample_env payload_a_ok
           (snd (process_message sample_env payload_a_great initial_state))
           (PyStr "a") [0.8%float]).
  reflexivity.
Defined.

(** X18. What a message does to the tables depends on the tables, on what
    the payload decodes to and on the score of its text, and on nothing
    else: not on the log, not on the charts drawn so far, and not on
    whether Matplotlib returns or raises. *)
Theorem X18_tables_independent_of_drawing
  (E1 E2 : env) (m : string) (st1 st2 : state) :
  json_loads E1 m = json_loads E2 m ->
  (forall text, TextBlob_polarity E1 text = TextBlob_polarity E2 text) ->
  tables st1 = tables st2 ->
  tables (snd (process_message E1 m st1))
  = tables (snd (process_message E2 m st2)).
Proof.
  intros Hl Hp Ht. rewrite !process_message_tables, Ht.
  f_equal. unfold contribution. rewrite Hl.
  destruct (json_loads E2 m) as [v | e]; [ | reflexivity ].
  destruct v; try reflexivity. rewrite Hp. reflexivity.
Qed.

Lemma X18_witness :
  tables (snd (process_message sample_env payload_a_great initial_state))
  = tables (snd (process_message broken_plot_env payload_a_great
                   (snd (process_message sample_env payload_not_json
                           initial_state)))).
Proof.
  apply (@X18_tables_independent_of_drawing sample_env broken_plot_env
           payload_a_great initial_state
           (snd (process_message sample_env payload_not_json
                   initial_state)));
    reflexivity.
Defined.
